(** * Solaar daemon lifecycle controller: [lib/solaar/daemon.py]

    A shallow embedding of the mode dispatcher, the process detacher, the
    PID-file writer, the signal handler and the run loop of
    [solaar/daemon.py], and the properties of its lifecycle.

    The Python code is sequential and effectful.  It is embedded in a small
    state-and-control monad over a [world] (the module globals the code reads
    back, plus a chronological trace of every externally visible action).
    Everything the code obtains from outside the file (the parsed command
    line, the platform, the result of [os.fork], the listener hooks, the
    signals that arrive while a call is in progress) is read from an [env].

    Conventions.  An event of the trace records a call, whether it succeeds
    or not.  The calls that may fail are those the source guards or that
    belong to other modules of the package, and those the source leaves
    unguarded on the way of the detached process: [import pyudev],
    [os.fork], [os.chdir], [os.setsid], [os.umask], the redirection of the
    standard streams, the opening and writing of the PID file,
    [cli.print_help], [cli.run], [listener.setup_scanner],
    [dbus.watch_suspend_resume], the two hooks, [time.sleep] and
    [temp.close()]; the logging calls return.  What these
    calls raise is an instance of [Exception]; [SystemExit] comes from
    [sys.exit] (and from [cli.run] and [argparse], which may call it).
    [argparse] is not part of the file: the namespace it builds is an
    input. *)

From Stdlib Require Import ZArith List String Bool Lia DecimalString.
From Stdlib Require Import Relations RelationClasses.
From Stdlib Require Import DecimalPos DecimalZ.
Import ListNotations.
Local Open Scope string_scope.
Local Open Scope list_scope.
Local Open Scope Z_scope.

(** ** Constants of the [logging] and [signal] modules *)

Module logging.
Definition CRITICAL : Z := 50.
Definition ERROR : Z := 40.
Definition WARNING : Z := 30.
Definition INFO : Z := 20.
Definition DEBUG : Z := 10.
Definition NOTSET : Z := 0.
End logging.

Module signal.
Definition SIGINT : Z := 2.
Definition SIGTERM : Z := 15.
End signal.

(** ** Control outcomes *)

(** An instance of a subclass of [Exception]: what [except Exception]
    catches.  [SystemExit] is not one of them and is a control outcome of its
    own below. *)
Record exn : Type := mkExn { exn_class : string; exn_msg : string }.

(** The argument of [sys.exit]. *)
Inductive exit_arg : Type :=
| ExitCode (n : Z)
| ExitMsg (s : string).

(** How a piece of code ends: it returns, it raises an [Exception], it
    raises [SystemExit], or it never ends. *)
Inductive outcome (A : Type) : Type :=
| Normal (a : A)
| Raised (e : exn)
| SysExit (c : exit_arg)
| Hang.
Arguments Normal {A} a.
Arguments Raised {A} e.
Arguments SysExit {A} c.
Arguments Hang {A}.

(** Values returned by [main]: [None] or whatever [cli.run] returned. *)
Inductive pyval : Type :=
| PyNone
| PyInt (z : Z)
| PyStr (s : string).

(** ** Observable actions *)

Inductive arg : Type :=
| AStr (s : string)
| AInt (z : Z)
| AExn (e : exn).

Inductive handler_kind : Type :=
| TempFileHandler     (* logging.StreamHandler(temp) *)
| ConsoleHandler.     (* logging.StreamHandler() *)

Inductive event : Type :=
| ESetLoggerClass
| ETempCreate
| EImportPyudev
| ECliPrintHelp
| ECliRun (action : list string) (hidraw_path : option string)
| ESetLevel (lvl : Z)
| EAddHandler (h : handler_kind) (lvl : Z)
| EGetLocale
| ELog (lvl : Z) (fmt : string) (args : list arg)
| EDumpTraceback
| ETempClose
| EFork
| EChdir (path : string)
| ESetsid
| EUmask (mask : Z)
| ERedirectStdio
| EOpenWrite (path : string)
| EFileWrite (path : string) (content : string)
| EAtexitRegister (path : string)
| ESetupScanner
| EWatchSuspendResume (restart : bool)
| EDeferSaves
| ESignalInstall (sig : Z)
| EStartupHook
| EShutdownHook
| ESleep (secs : Z).

(** ** The world *)

Record world : Type := mkWorld {
  _running : bool;                          (* module global [_running] *)
  root_level : Z;                           (* level of the root logger *)
  log_handlers : list (handler_kind * Z);   (* handlers of the root logger *)
  sig_handlers : list Z;                    (* signals bound to [_handlesig] *)
  trace : list event                        (* what happened, oldest first *)
}.

(** The world right after the module is imported, when [main] is called:
    the logger class is set, the temporary log file [temp] exists,
    [_running = True], and the root logger is at its default level. *)
Definition initial_world : world :=
  mkWorld true logging.WARNING [] [] [ESetLoggerClass; ETempCreate].

Definition set_running (b : bool) (w : world) : world :=
  mkWorld b (root_level w) (log_handlers w) (sig_handlers w) (trace w).

Definition set_root_level (l : Z) (w : world) : world :=
  mkWorld (_running w) l (log_handlers w) (sig_handlers w) (trace w).

Definition add_log_handler (h : handler_kind) (l : Z) (w : world) : world :=
  mkWorld (_running w) (root_level w) (log_handlers w ++ [(h, l)])
          (sig_handlers w) (trace w).

Definition add_sig_handler (s : Z) (w : world) : world :=
  mkWorld (_running w) (root_level w) (log_handlers w)
          (s :: sig_handlers w) (trace w).

Definition emit (ev : event) (w : world) : world :=
  mkWorld (_running w) (root_level w) (log_handlers w) (sig_handlers w)
          (trace w ++ [ev]).

(** ** The monad *)

Definition M (A : Type) : Type := world -> outcome A * world.

Definition ret {A} (a : A) : M A := fun w => (Normal a, w).

Definition bind {A B} (m : M A) (k : A -> M B) : M B :=
  fun w =>
    match m w with
    | (Normal a, w') => k a w'
    | (Raised e, w') => (Raised e, w')
    | (SysExit c, w') => (SysExit c, w')
    | (Hang, w') => (Hang, w')
    end.

Notation "x <- m ;; k" := (bind m (fun x => k))
  (at level 61, m at next level, right associativity).
Notation "m ;; k" := (bind m (fun _ => k))
  (at level 61, right associativity).

(** A call into code outside this file that ends as [r] says. *)
Definition yield {A} (r : outcome A) : M A := fun w => (r, w).

Definition raise {A} (e : exn) : M A := fun w => (Raised e, w).

(** [sys.exit(c)] *)
Definition sys_exit {A} (c : exit_arg) : M A := fun w => (SysExit c, w).

(** An action that only changes the world. *)
Definition act (f : world -> world) : M unit := fun w => (Normal tt, f w).

Definition emits (ev : event) : M unit := act (emit ev).

(** [if c: m] where [c] reads the world. *)
Definition when_ (c : world -> bool) (m : M unit) : M unit :=
  fun w => if c w then m w else (Normal tt, w).

(** [try: m  except Exception as e: h e] *)
Definition try_except {A} (m : M A) (h : exn -> M A) : M A :=
  fun w =>
    match m w with
    | (Raised e, w') => h e w'
    | r => r
    end.

(** [try: m  finally: fin].  The [finally] suite runs however [m] ends,
    unless [m] never ends; when [fin] itself does not return, its outcome
    replaces the one of [m]. *)
Definition try_finally {A} (m : M A) (fin : M unit) : M A :=
  fun w =>
    match m w with
    | (Hang, w') => (Hang, w')
    | (r, w') =>
        match fin w' with
        | (Normal _, w'') => (r, w'')
        | (Raised e, w'') => (Raised e, w'')
        | (SysExit c, w'') => (SysExit c, w'')
        | (Hang, w'') => (Hang, w'')
        end
    end.

(** ** Logging *)

(** [logger.isEnabledFor(lvl)]: the module logger has no level of its own,
    so its effective level is the one of the root logger. *)
Definition isEnabledFor (lvl : Z) (w : world) : bool := root_level w <=? lvl.

(** [logger.log(lvl, fmt, *args)]: a record is made when the level is
    enabled. *)
Definition log (lvl : Z) (fmt : string) (args : list arg) (w : world) : world :=
  if isEnabledFor lvl w then emit (ELog lvl fmt args) w else w.

Definition logger_info (fmt : string) (args : list arg) : M unit :=
  act (log logging.INFO fmt args).
Definition logger_warning (fmt : string) (args : list arg) : M unit :=
  act (log logging.WARNING fmt args).
Definition logger_error (fmt : string) (args : list arg) : M unit :=
  act (log logging.ERROR fmt args).

(** [traceback.format_exc()] for the exception being handled (the stack
    frames are left out). *)
Definition format_exc (e : exn) : string :=
  "Traceback (most recent call last): " ++ exn_class e ++ ": " ++ exn_msg e.

(** ** The environment *)

(** One call into code outside this file: the signals delivered while it
    runs, and the exception it ends with, if any. *)
Record call : Type := mkCall { signals : list Z; raises : option exn }.

Definition returns_quietly : call := mkCall [] None.

(** What [os.fork()] does in the process whose execution is followed: it
    returns the child's pid (in the parent), [0] (in the child), or raises
    [OSError]. *)
Inductive fork_result : Type :=
| ForkReturns (pid : Z)
| ForkFails (e : exn).

(** The [argparse] namespace built by [create_parser().parse_args()]. *)
Record Namespace : Type := mkNamespace {
  debug : nat;
  hidraw_path : option string;
  restart_on_wake_up : bool;
  pid_file : option string;
  no_fork : bool;
  help_actions : bool;
  action : list string
}.

(** [parse_args] returns a namespace, or leaves through [SystemExit]
    ([--version], [--help], a usage error). *)
Inductive parsed : Type :=
| Parsed (ns : Namespace)
| ParserExit (code : Z).

Record env : Type := mkEnv {
  NAME_lower : string;                 (* NAME.lower() *)
  version : string;                    (* __version__ *)
  platform_system : string;            (* platform.system() *)
  pyudev_importable : bool;            (* does [import pyudev] succeed *)
  parse_args : parsed;
  getlocale : string * string;         (* locale.getlocale() *)
  cli_print_help : option exn;         (* cli.print_help() *)
  cli_run : list string -> option string -> outcome pyval;   (* cli.run *)
  fork1 : fork_result;                 (* first os.fork() *)
  fork2 : fork_result;                 (* second os.fork() *)
  getpid : Z;                          (* os.getpid() *)
  open_w : string -> option exn;       (* open(path, 'w') *)
  file_write : string -> option exn;   (* f.write(...) and closing f *)
  isfile : string -> bool;             (* os.path.isfile *)
  setup_scanner : option exn;          (* listener.setup_scanner(...) *)
  watch_suspend_resume : bool -> option exn;   (* dbus.watch_suspend_resume *)
  start_all : call;                    (* listener.start_all *)
  stop_all : call;                     (* listener.stop_all *)
  sleeps : list call;                  (* the successive time.sleep(1) *)
  os_chdir : option exn;               (* os.chdir("/") *)
  os_setsid : option exn;              (* os.setsid() *)
  os_umask : option exn;               (* os.umask(0) *)
  redirect_stdio : option exn;         (* the flushes, opens and dup2 that
                                          redirect the standard streams *)
  close_tolerates_missing : bool       (* closing a temporary file whose
                                          file is already gone is not an
                                          error (CPython from 3.12 on) *)
}.

(** A call that can only return or raise. *)
Definition ext (ev : event) (r : option exn) : M unit :=
  emits ev ;;
  match r with
  | None => ret tt
  | Some e => raise e
  end.

(** ** [_handlesig] *)

Definition _handlesig (e : env) (signl : Z) : M unit :=
  (if signl =? signal.SIGINT then
     when_ (isEnabledFor logging.INFO) (emits EDumpTraceback) ;;
     logger_info (NAME_lower e ++ "-daemon: exit due to keyboard interrupt") []
   else if signl =? signal.SIGTERM then
     logger_info (NAME_lower e ++ "-daemon: exit due to SIGTERM") []
   else
     logger_info (NAME_lower e ++ "-daemon: exit due to signal %d") [AInt signl]) ;;
  act (set_running false).

(** Delivery of one signal: [_handlesig] runs when it was installed for
    that signal by [signal.signal]; the default disposition of the other
    signals is not part of the model. *)
Definition deliver (e : env) (s : Z) : M unit :=
  fun w =>
    if existsb (Z.eqb s) (sig_handlers w) then _handlesig e s w
    else (Normal tt, w).

Fixpoint deliver_all (e : env) (ss : list Z) : M unit :=
  match ss with
  | [] => ret tt
  | s :: ss' => deliver e s ;; deliver_all e ss'
  end.

(** A call during which signals may arrive. *)
Definition run_call (e : env) (ev : event) (c : call) : M unit :=
  emits ev ;;
  deliver_all e (signals c) ;;
  match raises c with
  | None => ret tt
  | Some x => raise x
  end.

(** ** [_daemon_run_loop] *)

(** [signal.signal(s, _handlesig)] *)
Definition signal_signal (s : Z) : M unit :=
  emits (ESignalInstall s) ;; act (add_sig_handler s).

(** [while _running: time.sleep(1)].  The schedule lists the sleeps during
    which something happens; once it is used up the flag can no longer
    change, and a loop that still finds it [True] goes on for ever. *)
Fixpoint wait_loop (e : env) (sch : list call) (w : world) : outcome unit * world :=
  if _running w then
    match sch with
    | [] => (Hang, w)
    | c :: sch' =>
        match run_call e (ESleep 1) c w with
        | (Normal _, w') => wait_loop e sch' w'
        | r => r
        end
    end
  else (Normal tt, w).

(** The [try] suite with its [except Exception] clause. *)
Definition wait_phase (e : env) : M unit :=
  try_except
    (wait_loop e (sleeps e))
    (fun x => logger_error "daemon loop error: %s" [AExn x]).

Definition _daemon_run_loop (e : env) (startup_hook shutdown_hook : call) : M unit :=
  signal_signal signal.SIGTERM ;;
  signal_signal signal.SIGINT ;;
  run_call e EStartupHook startup_hook ;;
  try_finally
    (wait_phase e)
    (run_call e EShutdownHook shutdown_hook).

(** ** [_write_pid_file] *)

(** [str(n)] for an integer. *)
Definition str (n : Z) : string := NilZero.string_of_int (Z.to_int n).

Definition _write_pid_file (e : env) (pid_file : option string) : M unit :=
  match pid_file with
  | Some p =>
      if negb (p =? "")%string then
        try_except
          (ext (EOpenWrite p) (open_w e p) ;;
           ext (EFileWrite p (str (getpid e))) (file_write e p) ;;
           emits (EAtexitRegister p) ;;
           logger_info "PID %d written to %s" [AInt (getpid e); AStr p])
          (fun x => logger_error "Failed to write PID file %s: %s" [AStr p; AExn x])
      else ret tt
  | None => ret tt
  end.

(** ** [_daemonize] *)

(** [try: pid = os.fork(); if pid > 0: sys.exit(0)
     except OSError as e: logger.error(msg, e); sys.exit(1)] *)
Definition fork_step (r : fork_result) (msg : string) : M unit :=
  emits EFork ;;
  match r with
  | ForkReturns pid => if 0 <? pid then sys_exit (ExitCode 0) else ret tt
  | ForkFails x => logger_error msg [AExn x] ;; sys_exit (ExitCode 1)
  end.

Definition _daemonize (e : env) : M unit :=
  fork_step (fork1 e) "fork #1 failed: %s" ;;
  ext (EChdir "/") (os_chdir e) ;;
  ext ESetsid (os_setsid e) ;;
  ext (EUmask 0) (os_umask e) ;;
  fork_step (fork2 e) "fork #2 failed: %s" ;;
  ext ERedirectStdio (redirect_stdio e).

(** ** [_parse_arguments] *)

Definition log_level (d : nat) : Z := logging.ERROR - 10 * Z.of_nat d.

(** Level given to the root logger. *)
Definition root_threshold (d : nat) : Z := Z.min (log_level d) logging.WARNING.

(** Level given to the handler that writes to the temporary file. *)
Definition file_threshold (d : nat) : Z :=
  Z.max (Z.min (log_level d) logging.WARNING) logging.INFO.

(** Level given to the console handler, when there is one. *)
Definition stream_threshold (d : nat) : Z := log_level d.

Definition is_empty {A} (l : list A) : bool :=
  match l with [] => true | _ :: _ => false end.

Definition _parse_arguments (e : env) : M (option Namespace) :=
  match parse_args e with
  | ParserExit c => sys_exit (ExitCode c)
  | Parsed args =>
      if help_actions args then
        ext ECliPrintHelp (cli_print_help e) ;;
        ret None
      else
        emits (ESetLevel (root_threshold (debug args))) ;;
        act (set_root_level (root_threshold (debug args))) ;;
        emits (EAddHandler TempFileHandler (file_threshold (debug args))) ;;
        act (add_log_handler TempFileHandler (file_threshold (debug args))) ;;
        (if (0 <? debug args)%nat || no_fork args then
           emits (EAddHandler ConsoleHandler (stream_threshold (debug args))) ;;
           act (add_log_handler ConsoleHandler (stream_threshold (debug args)))
         else ret tt) ;;
        (if is_empty (action args) then
           emits EGetLocale ;;
           logger_info "daemon version %s, language %s (%s)"
             [AStr (version e); AStr (fst (getlocale e)); AStr (snd (getlocale e))]
         else ret tt) ;;
        ret (Some args)
  end.

(** ** [main] *)

Definition udev_file : string := "42-logitech-unify-permissions.rules".

(** The [import pyudev] guard at the top of [main]. *)
Definition check_pyudev (e : env) : M unit :=
  if negb ((platform_system e =? "Darwin")%string
           || (platform_system e =? "Windows")%string) then
    emits EImportPyudev ;;
    if pyudev_importable e then ret tt
    else sys_exit
           (ExitMsg (NAME_lower e ++ "-daemon: missing required system package python3-pyudev"))
  else ret tt.

(** The advisory about the udev rules file. *)
Definition udev_advisory (e : env) : M unit :=
  when_ (fun w =>
           (platform_system e =? "Linux")%string
           && isEnabledFor logging.WARNING w
           && negb (isfile e ("/etc/udev/rules.d/" ++ udev_file))
           && negb (isfile e ("/usr/lib/udev/rules.d/" ++ udev_file))
           && negb (isfile e ("/usr/local/lib/udev/rules.d/" ++ udev_file)))
    (logger_warning "Solaar udev file not found in expected location" [] ;;
     logger_warning
       "See https://pwr-solaar.github.io/Solaar/installation for more information" []).

(** The suite of the [try] statement at the end of [main]. *)
Definition daemon_sequence (e : env) (args : Namespace) : M unit :=
  ext ESetupScanner (setup_scanner e) ;;
  ext (EWatchSuspendResume (restart_on_wake_up args))
      (watch_suspend_resume e (restart_on_wake_up args)) ;;
  emits EDeferSaves ;;
  _daemon_run_loop e (start_all e) (stop_all e).

(** The exception of [temp.close()] when the file is already gone. *)
Definition temp_file_gone : exn :=
  mkExn "FileNotFoundError" "[Errno 2] No such file or directory".

(** [temp.close()].  [temp] is created when the module is imported, before
    any fork, with [delete=True], so that closing it removes its file.  In
    the process that stays after the detachment ([detached]) the file has
    been removed by then: each of the two parents left through
    [sys.exit(0)], and the end of a process closes its own [temp].  The
    removal then raises [FileNotFoundError], unless the runtime passes over
    a file that is already gone. *)
Definition temp_close (e : env) (detached : bool) : M unit :=
  emits ETempClose ;;
  if detached && negb (close_tolerates_missing e)
  then raise temp_file_gone
  else ret tt.

(** [main] from the point where daemon mode has been selected. *)
Definition run_daemon (e : env) (args : Namespace) : M pyval :=
  (if negb (no_fork args) then _daemonize e else ret tt) ;;
  _write_pid_file e (pid_file args) ;;
  udev_advisory e ;;
  try_except
    (daemon_sequence e args)
    (fun x =>
       logger_error (NAME_lower e ++ "-daemon: error: " ++ format_exc x) [] ;;
       sys_exit (ExitCode 1)) ;;
  temp_close e (negb (no_fork args)) ;;
  ret PyNone.

Definition main (e : env) : M pyval :=
  check_pyudev e ;;
  args <- _parse_arguments e ;;
  match args with
  | None =>
      temp_close e false ;;
      ret PyNone
  | Some args =>
      if negb (is_empty (action args)) then
        result <- (emits (ECliRun (action args) (hidraw_path args)) ;;
                   yield (cli_run e (action args) (hidraw_path args))) ;;
        temp_close e false ;;
        ret result
      else run_daemon e args
  end.

(** Exit status of the process when the file is run as a script
    ([if __name__ == "__main__": main()]): the value returned by [main] is
    dropped; an uncaught exception and [sys.exit] with a message give [1];
    [sys.exit(n)] gives the low eight bits of [n], and 255 when [n] does
    not fit a C long (of 64 bits); a process that never ends has no
    status. *)
Definition exit_status {A} (r : outcome A) : option Z :=
  match r with
  | Normal _ => Some 0
  | Raised _ => Some 1
  | SysExit (ExitCode n) =>
      Some (if (- 2 ^ 63 <=? n) && (n <? 2 ^ 63) then Z.land n 255 else 255)
  | SysExit (ExitMsg _) => Some 1
  | Hang => None
  end.

(** The whole program, started from the freshly imported module. *)
Definition program (e : env) : outcome pyval * world := main e initial_world.

(** ** The headless callbacks *)

(** [daemon_setting_changed(device, setting_class, vals)], the arguments
    being given by their text. *)
Definition daemon_setting_changed (device setting_class vals : string) : M unit :=
  logger_info "daemon setting_changed %s: %s = %s"
    [AStr device; AStr setting_class; AStr vals].

(** [daemon_error_handler(reason, device_path)] *)
Definition daemon_error_handler (reason device_path : string) : M unit :=
  logger_error "daemon error: %s for device %s" [AStr reason; AStr device_path].

(** Reading an attribute of an object of another module, or converting it:
    a value, or an exception. *)
Inductive attr (A : Type) : Type :=
| Value (a : A)
| Fails (x : exn).
Arguments Value {A} a.
Arguments Fails {A} x.

(** A receiver or a device, as far as [daemon_status_changed] looks at it:
    its [repr], its [kind] ([None] for a receiver), its truth value, what
    [ping()] does, and its [online] attribute. *)
Record device : Type := mkDevice {
  dev_repr : string;
  dev_kind : attr (option string);
  dev_bool : attr bool;
  dev_ping : option exn;
  dev_online : attr bool
}.

(** What [daemon_status_changed] does to the outside: it pings the device
    and it makes log records at INFO level. *)
Inductive device_action : Type :=
| DPing
| DInfo (fmt : string) (args : list arg).

(** Actions done, then a result or the exception that stopped them. *)
Definition D (A : Type) : Type := list device_action * attr A.

Definition dret {A} (a : A) : D A := ([], Value a).

Definition dbind {A B} (m : D A) (k : A -> D B) : D B :=
  match m with
  | (acts, Value a) => (acts ++ fst (k a), snd (k a))
  | (acts, Fails x) => (acts, Fails x)
  end.

Definition dget {A} (a : attr A) : D A := ([], a).

Definition ddo (act : device_action) (r : option exn) : D unit :=
  ([act], match r with None => Value tt | Some x => Fails x end).

(** [try: m  except Exception as e: h e] *)
Definition dtry (m : D unit) (h : exn -> D unit) : D unit :=
  match m with
  | (acts, Fails x) => (acts ++ fst (h x), snd (h x))
  | r => r
  end.

(** [alert if alert is not None else 0] *)
Definition alert_or_0 (alert : option Z) : Z :=
  match alert with Some a => a | None => 0 end.

(** [reason or ""] *)
Definition reason_or_empty (reason : option string) : string :=
  match reason with Some r => r | None => "" end.

(** [daemon_status_changed(device, alert, reason)]; [info] is
    [logger.isEnabledFor(logging.INFO)]. *)
Definition daemon_status_changed (info : bool) (dev : option device)
    (alert : option Z) (reason : option string) : D unit :=
  match dev with
  | None => ([], Fails (mkExn "AssertionError" ""))
  | Some d =>
      if info then
        dtry
          (dbind (dget (dev_kind d)) (fun kind =>
           match kind with
           | None =>
               dbind (dget (dev_bool d)) (fun b =>
               ddo (DInfo "daemon status_changed %r: %s (%X) %s"
                      [AStr (dev_repr d);
                       AStr (if b then "present" else "removed");
                       AInt (alert_or_0 alert);
                       AStr (reason_or_empty reason)]) None)
           | Some _ =>
               dbind (ddo DPing (dev_ping d)) (fun _ =>
               dbind (dget (dev_bool d)) (fun b =>
               dbind (dget (dev_online d)) (fun o =>
               ddo (DInfo "daemon status_changed %r: %s %s (%X) %s"
                      [AStr (dev_repr d);
                       AStr (if b then "paired" else "unpaired");
                       AStr (if o then "online" else "offline");
                       AInt (alert_or_0 alert);
                       AStr (reason_or_empty reason)]) None)))
           end))
          (fun x =>
             ddo (DInfo "daemon status_changed for unknown device: %s" [AExn x])
                 None)
      else dret tt
  end.

(** ** Example environments *)

Module Examples.

Definition boom : exn := mkExn "RuntimeError" "boom".

Definition daemon_ns : Namespace :=
  mkNamespace 0 None false None true false [].

(** A Linux machine with pyudev, the daemon kept in the foreground, and a
    SIGTERM delivered during the second sleep. *)
Definition quiet : env :=
  {| NAME_lower := "solaar";
     version := "1.1.14";
     platform_system := "Linux";
     pyudev_importable := true;
     parse_args := Parsed daemon_ns;
     getlocale := ("en_US", "UTF-8");
     cli_print_help := None;
     cli_run := fun _ _ => Normal (PyInt 0);
     fork1 := ForkReturns 0;
     fork2 := ForkReturns 0;
     getpid := 4242;
     open_w := fun _ => None;
     file_write := fun _ => None;
     isfile := fun _ => true;
     setup_scanner := None;
     watch_suspend_resume := fun _ => None;
     start_all := returns_quietly;
     stop_all := returns_quietly;
     sleeps := [returns_quietly; mkCall [signal.SIGTERM] None];
     os_chdir := None;
     os_setsid := None;
     os_umask := None;
     redirect_stdio := None;
     close_tolerates_missing := false |}.

(** The same machine, with a dispatcher that returns 3. *)
Definition dispatcher : env :=
  mkEnv (NAME_lower quiet) (version quiet) (platform_system quiet)
        (pyudev_importable quiet) (parse_args quiet) (getlocale quiet)
        (cli_print_help quiet) (fun _ _ => Normal (PyInt 3))
        (fork1 quiet) (fork2 quiet) (getpid quiet) (open_w quiet)
        (file_write quiet) (isfile quiet) (setup_scanner quiet)
        (watch_suspend_resume quiet) (start_all quiet) (stop_all quiet)
        (sleeps quiet)
      (os_chdir quiet) (os_setsid quiet) (os_umask quiet) (redirect_stdio quiet)
      (close_tolerates_missing quiet).

Definition with_args (ns : Namespace) (e : env) : env :=
  mkEnv (NAME_lower e) (version e) (platform_system e) (pyudev_importable e)
        (Parsed ns) (getlocale e) (cli_print_help e) (cli_run e)
        (fork1 e) (fork2 e) (getpid e) (open_w e) (file_write e) (isfile e)
        (setup_scanner e) (watch_suspend_resume e) (start_all e) (stop_all e)
        (sleeps e)
      (os_chdir e) (os_setsid e) (os_umask e) (redirect_stdio e)
      (close_tolerates_missing e).

Definition with_hooks (su sd : call) (e : env) : env :=
  mkEnv (NAME_lower e) (version e) (platform_system e) (pyudev_importable e)
        (parse_args e) (getlocale e) (cli_print_help e) (cli_run e)
        (fork1 e) (fork2 e) (getpid e) (open_w e) (file_write e) (isfile e)
        (setup_scanner e) (watch_suspend_resume e) su sd (sleeps e)
      (os_chdir e) (os_setsid e) (os_umask e) (redirect_stdio e)
      (close_tolerates_missing e).

Definition without_pyudev (e : env) : env :=
  mkEnv (NAME_lower e) (version e) (platform_system e) false
        (parse_args e) (getlocale e) (cli_print_help e) (cli_run e)
        (fork1 e) (fork2 e) (getpid e) (open_w e) (file_write e) (isfile e)
        (setup_scanner e) (watch_suspend_resume e) (start_all e) (stop_all e)
        (sleeps e)
      (os_chdir e) (os_setsid e) (os_umask e) (redirect_stdio e)
      (close_tolerates_missing e).

Definition unwritable (x : exn) (e : env) : env :=
  mkEnv (NAME_lower e) (version e) (platform_system e) (pyudev_importable e)
        (parse_args e) (getlocale e) (cli_print_help e) (cli_run e)
        (fork1 e) (fork2 e) (getpid e) (fun _ => Some x) (file_write e) (isfile e)
        (setup_scanner e) (watch_suspend_resume e) (start_all e) (stop_all e)
        (sleeps e)
      (os_chdir e) (os_setsid e) (os_umask e) (redirect_stdio e)
      (close_tolerates_missing e).

(** [solaar-daemon -D /dev/hidraw2 config] *)
Definition one_shot : env :=
  with_args (mkNamespace 0 (Some "/dev/hidraw2") false None false false ["config"])
            dispatcher.

(** [solaar-daemon -D /dev/hidraw2 config] on a machine without pyudev. *)
Definition one_shot_without_pyudev : env := without_pyudev one_shot.

(** [solaar-daemon --help-actions config] *)
Definition help_and_action : env :=
  with_args (mkNamespace 0 None false None false true ["config"]) dispatcher.



(** [listener.start_all] raises. *)
Definition failing_startup : env :=
  with_hooks (mkCall [] (Some boom)) returns_quietly quiet.

(** [listener.stop_all] raises. *)
Definition failing_shutdown : env :=
  with_hooks returns_quietly (mkCall [] (Some boom)) quiet.

Definition denied : exn := mkExn "PermissionError" "[Errno 13] Permission denied".

Definition pid_ns : Namespace :=
  mkNamespace 1 None false (Some "/run/solaar.pid") true false [].

(** [solaar-daemon -d --no-fork --pid-file /run/solaar.pid] with a PID file
    that cannot be opened. *)
Definition unwritable_pid : env := unwritable denied (with_args pid_ns quiet).

(** The second [time.sleep] raises. *)
Definition broken_sleep : env :=
  mkEnv (NAME_lower quiet) (version quiet) (platform_system quiet)
        (pyudev_importable quiet) (parse_args quiet) (getlocale quiet)
        (cli_print_help quiet) (cli_run quiet)
        (fork1 quiet) (fork2 quiet) (getpid quiet) (open_w quiet)
        (file_write quiet) (isfile quiet) (setup_scanner quiet)
        (watch_suspend_resume quiet) (start_all quiet) (stop_all quiet)
        [returns_quietly; mkCall [] (Some boom)]
      (os_chdir quiet) (os_setsid quiet) (os_umask quiet) (redirect_stdio quiet)
      (close_tolerates_missing quiet).

(** [listener.setup_scanner] raises. *)
Definition broken_scanner : env :=
  mkEnv (NAME_lower quiet) (version quiet) (platform_system quiet)
        (pyudev_importable quiet) (parse_args quiet) (getlocale quiet)
        (cli_print_help quiet) (cli_run quiet)
        (fork1 quiet) (fork2 quiet) (getpid quiet) (open_w quiet)
        (file_write quiet) (isfile quiet) (Some boom)
        (watch_suspend_resume quiet) (start_all quiet) (stop_all quiet)
        (sleeps quiet)
      (os_chdir quiet) (os_setsid quiet) (os_umask quiet) (redirect_stdio quiet)
      (close_tolerates_missing quiet).

(** [solaar-daemon], detaching, with a SIGTERM during the second sleep,
    on a runtime for which a temporary file that is gone is an error. *)
Definition detached : env :=
  with_args (mkNamespace 0 None false None false false []) quiet.

End Examples.

(** * Notions used in the statements *)

(** The outcome is one of a process step that ends. *)
Definition ends {A} (r : outcome A) : bool :=
  match r with
  | Hang => false
  | _ => true
  end.

(** Number of events of a trace that satisfy [p]. *)
Definition count_ev (p : event -> bool) (tr : list event) : nat :=
  List.length (filter p tr).

Definition is_shutdown (ev : event) : bool :=
  match ev with EShutdownHook => true | _ => false end.

Definition is_startup (ev : event) : bool :=
  match ev with EStartupHook => true | _ => false end.

Definition is_sleep (ev : event) : bool :=
  match ev with ESleep _ => true | _ => false end.

(** Output of the signal handler: a log record at INFO level or the
    traceback dump of [faulthandler]. *)
Definition is_diagnostic (ev : event) : bool :=
  match ev with
  | ELog lvl _ _ => lvl =? logging.INFO
  | EDumpTraceback => true
  | _ => false
  end.

Definition is_log (ev : event) : bool :=
  match ev with ELog _ _ _ => true | _ => false end.

(** Forking, writing a PID file, installing a signal handler. *)
Definition is_daemon_effect (ev : event) : bool :=
  match ev with
  | EFork | EChdir _ | ESetsid | EUmask _ | ERedirectStdio
  | EOpenWrite _ | EFileWrite _ _ | EAtexitRegister _
  | ESignalInstall _ => true
  | _ => false
  end.


(** [m] takes every world to a world related to it by [R]. *)
Definition respects (R : relation world) {A} (m : M A) : Prop :=
  forall w, R w (snd (m w)).

(** The trace grows, and by events that satisfy [P] only. *)
Definition extends (P : event -> bool) : relation world :=
  fun w w' => exists evs, trace w' = trace w ++ evs /\ forallb P evs = true.

(** The level of the root logger is the same. *)
Definition same_level : relation world :=
  fun w w' => root_level w' = root_level w.

(** [only P m]: every event that [m] adds to the trace satisfies [P]. *)
Abbreviation only P := (respects (extends P)).

(** The configuration of a world: everything but the flag and the trace. *)
Definition same_config (w w' : world) : Prop :=
  root_level w' = root_level w /\
  log_handlers w' = log_handlers w /\
  sig_handlers w' = sig_handlers w.

Definition call_outcome (c : call) : outcome unit :=
  match raises c with
  | None => Normal tt
  | Some x => Raised x
  end.

(** The world once both handlers are installed. *)
Definition installed (w : world) : world :=
  add_sig_handler signal.SIGINT
    (emit (ESignalInstall signal.SIGINT)
       (add_sig_handler signal.SIGTERM
          (emit (ESignalInstall signal.SIGTERM) w))).

(** The world when the startup hook is over. *)
Definition started (e : env) (startup_hook : call) (w : world) : world :=
  snd (run_call e EStartupHook startup_hook (installed w)).

(** No exception, and no signal that is bound to [_handlesig]. *)
Definition is_quiet (hs : list Z) (c : call) : bool :=
  match raises c with
  | None => forallb (fun s => negb (existsb (Z.eqb s) hs)) (signals c)
  | Some _ => false
  end.

(** A termination signal is among those delivered during the call. *)
Definition stops (c : call) : bool :=
  existsb (fun s => (s =? signal.SIGTERM) || (s =? signal.SIGINT)) (signals c).

(** The world after [n] sleeps during which nothing happened. *)
Fixpoint slept (n : nat) (w : world) : world :=
  match n with
  | O => w
  | S n' => slept n' (emit (ESleep 1) w)
  end.

(** The [import pyudev] guard stops the process. *)
Definition pyudev_missing (e : env) : bool :=
  negb ((platform_system e =? "Darwin")%string
        || (platform_system e =? "Windows")%string)
  && negb (pyudev_importable e).

Definition fork_outcome (r : fork_result) : outcome unit :=
  match r with
  | ForkReturns pid => if 0 <? pid then SysExit (ExitCode 0) else Normal tt
  | ForkFails _ => SysExit (ExitCode 1)
  end.

(** How a call that returns or raises ends. *)
Definition step_outcome (r : option exn) : outcome unit :=
  match r with
  | None => Normal tt
  | Some x => Raised x
  end.

(** [r], and when this is a return, [k]. *)
Definition and_then (r k : outcome unit) : outcome unit :=
  match r with
  | Normal _ => k
  | _ => r
  end.

(** What ends [_daemonize] between the two forks, if anything does. *)
Definition session_outcome (e : env) : outcome unit :=
  and_then (step_outcome (os_chdir e))
    (and_then (step_outcome (os_setsid e)) (step_outcome (os_umask e))).

(** How [_daemonize] ends in the process that is followed. *)
Definition detach_outcome (e : env) : outcome unit :=
  and_then (fork_outcome (fork1 e))
    (and_then (session_outcome e)
       (and_then (fork_outcome (fork2 e))
          (step_outcome (redirect_stdio e)))).


(** The process that is followed is the one that goes on after
    [_daemonize], or there is no detachment. *)
Definition stays (e : env) (ns : Namespace) : bool :=
  no_fork ns ||
  match detach_outcome e with
  | Normal _ => true
  | _ => false
  end.

(** [main] in daemon mode, up to the call of [_write_pid_file]. *)
Definition before_pid (e : env) (ns : Namespace) : M unit :=
  check_pyudev e ;;
  _parse_arguments e ;;
  (if negb (no_fork ns) then _daemonize e else ret tt).

(** [main] in daemon mode, up to the [try] statement. *)
Definition before_try (e : env) (ns : Namespace) : M unit :=
  before_pid e ns ;;
  _write_pid_file e (pid_file ns) ;;
  udev_advisory e.

(** The first three statements of the [try] suite, when they return. *)
Definition prepared (ns : Namespace) (w : world) : world :=
  emit EDeferSaves
    (emit (EWatchSuspendResume (restart_on_wake_up ns))
       (emit ESetupScanner w)).

(** The world in which [_daemon_run_loop] is called. *)
Definition at_loop (e : env) (ns : Namespace) (w : world) : world :=
  prepared ns (snd (before_try e ns w)).

Definition is_none {A} (o : option A) : bool :=
  match o with None => true | Some _ => false end.

(** The namespace, when the command line selects daemon mode. *)
Definition daemon_args (e : env) : option Namespace :=
  match parse_args e with
  | Parsed ns =>
      if negb (help_actions ns) && is_empty (action ns) then Some ns else None
  | ParserExit _ => None
  end.

(** The namespace, when daemon mode is selected and the process that is
    followed gets to the [try] statement. *)
Definition enters_try (e : env) : option Namespace :=
  match daemon_args e with
  | Some ns => if negb (pyudev_missing e) && stays e ns then Some ns else None
  | None => None
  end.

(** The namespace, when moreover the scanner and the suspend/resume watch
    are set up without an exception, so that [_daemon_run_loop] is called. *)
Definition reaches_run_loop (e : env) : option Namespace :=
  match enters_try e with
  | Some ns =>
      if is_none (setup_scanner e)
         && is_none (watch_suspend_resume e (restart_on_wake_up ns))
      then Some ns else None
  | None => None
  end.

(** The file of [temp] is gone when the daemon closes it, and the runtime
    makes an error of that. *)
Definition close_fails (e : env) (ns : Namespace) : bool :=
  negb (no_fork ns) && negb (close_tolerates_missing e).

(** [main] in daemon mode, from the end of the [try] suite on. *)
Definition conclude (e : env) (ns : Namespace) (r : outcome unit * world)
    : outcome pyval * world :=
  match r with
  | (Normal _, w) =>
      (if close_fails e ns then Raised temp_file_gone else Normal PyNone,
       emit ETempClose w)
  | (Raised x, w) =>
      (SysExit (ExitCode 1),
       log logging.ERROR (NAME_lower e ++ "-daemon: error: " ++ format_exc x) [] w)
  | (SysExit c, w) => (SysExit c, w)
  | (Hang, w) => (Hang, w)
  end.

(** Daemon mode is selected. *)
Definition daemon_mode (e : env) (ns : Namespace) : Prop :=
  parse_args e = Parsed ns /\ help_actions ns = false /\ action ns = [].

(** The exception that makes the write of the PID file fail, if any. *)
Definition pid_write_error (e : env) (p : string) : option exn :=
  match open_w e p with
  | Some x => Some x
  | None => file_write e p
  end.

(** The world once the write of the PID file has been attempted. *)
Definition attempted (e : env) (p : string) (w : world) : world :=
  match open_w e p with
  | Some _ => emit (EOpenWrite p) w
  | None => emit (EFileWrite p (str (getpid e))) (emit (EOpenWrite p) w)
  end.

(** ** Notions used for the rest of the file *)

Definition is_cli_run (ev : event) : bool :=
  match ev with ECliRun _ _ => true | _ => false end.



Definition is_temp_close (ev : event) : bool :=
  match ev with ETempClose => true | _ => false end.



Definition is_atexit (ev : event) : bool :=
  match ev with EAtexitRegister _ => true | _ => false end.

(** What [_daemonize] may do: the calls of the double fork, and a log
    record. *)
Definition is_detach_event (ev : event) : bool :=
  match ev with
  | EFork | EChdir _ | ESetsid | EUmask _ | ERedirectStdio => true
  | _ => false
  end.

(** What the run loop may do. *)
Definition is_loop_event (ev : event) : bool :=
  match ev with
  | ESignalInstall _ | EStartupHook | EShutdownHook | ESleep _
  | ELog _ _ _ | EDumpTraceback => true
  | _ => false
  end.

(** What [main] does in daemon mode once the process is detached: the
    PID file, the set-up of the listener, the run loop, the hooks. *)
Definition is_service_event (ev : event) : bool :=
  match ev with
  | EOpenWrite _ | EFileWrite _ _ | EAtexitRegister _
  | ESetupScanner | EWatchSuspendResume _ | EDeferSaves
  | ESignalInstall _ | EStartupHook | EShutdownHook | ESleep _
  | ETempClose => true
  | _ => false
  end.

(** A PID file path is configured: [if pid_file:]. *)
Definition configured (pid_file : option string) : bool :=
  match pid_file with
  | Some p => negb (p =? "")%string
  | None => false
  end.

(** The PID file is configured and written without an exception. *)
Definition pid_written (e : env) (pid_file : option string) : bool :=
  match pid_file with
  | Some p => negb (p =? "")%string && is_none (pid_write_error e p)
  | None => false
  end.

(** [int(s)] for the text of an integer in base ten. *)
Definition int_of_str (s : string) : option Z :=
  option_map Z.of_int (NilZero.int_of_string s).

(** The exception that stops the set-up of the listener, if any. *)
Definition setup_error (e : env) (ns : Namespace) : option exn :=
  match setup_scanner e with
  | Some x => Some x
  | None => watch_suspend_resume e (restart_on_wake_up ns)
  end.

(** [main] in daemon mode, from the call of [_write_pid_file] on. *)
Definition after_pid (e : env) (ns : Namespace) : M pyval :=
  _write_pid_file e (pid_file ns) ;;
  udev_advisory e ;;
  try_except
    (daemon_sequence e ns)
    (fun x =>
       logger_error (NAME_lower e ++ "-daemon: error: " ++ format_exc x) [] ;;
       sys_exit (ExitCode 1)) ;;
  temp_close e (negb (no_fork ns)) ;;
  ret PyNone.

Definition is_ping (a : device_action) : bool :=
  match a with DPing => true | DInfo _ _ => false end.

Definition is_info (a : device_action) : bool :=
  match a with DInfo _ _ => true | DPing => false end.

(** The object is a device rather than a receiver: its [kind] can be read
    and is not [None]. *)
Definition has_kind (d : device) : bool :=
  match dev_kind d with
  | Value (Some _) => true
  | _ => false
  end.

(** An example: a mouse that is paired but does not answer the ping. *)
Definition silent_mouse : device :=
  mkDevice "<Device MX Master>" (Value (Some "mouse")) (Value true)
           (Some (mkExn "NoSuchDevice" "device unreachable")) (Value false).

(** * Reasoning about traces *)

Lemma count_ev_app p tr1 tr2 :
  count_ev p (tr1 ++ tr2) = (count_ev p tr1 + count_ev p tr2)%nat.
Proof. unfold count_ev. now rewrite filter_app, List.length_app. Qed.

Lemma count_ev_none p tr :
  forallb (fun ev => negb (p ev)) tr = true -> count_ev p tr = 0%nat.
Proof.
  unfold count_ev. induction tr as [|ev tr IH]; simpl; auto.
  intros H. apply andb_true_iff in H as [H1 H2].
  destruct (p ev); simpl in *; [discriminate | auto].
Qed.

Section Respects.

Context (R : relation world) `{!PreOrder R}.

Lemma respects_ret {A} (a : A) : respects R (ret a).
Proof. intros w. simpl. reflexivity. Qed.

Lemma respects_raise {A} (x : exn) : respects R (@raise A x).
Proof. intros w. simpl. reflexivity. Qed.

Lemma respects_sys_exit {A} (c : exit_arg) : respects R (@sys_exit A c).
Proof. intros w. simpl. reflexivity. Qed.

Lemma respects_yield {A} (r : outcome A) : respects R (yield r).
Proof. intros w. simpl. reflexivity. Qed.

Lemma respects_act f : (forall w, R w (f w)) -> respects R (act f).
Proof. intros H w. apply H. Qed.

(** The continuation need only be considered for the values that [m]
    can return. *)
Lemma respects_bind_post {A B} (Q : A -> Prop) (m : M A) (k : A -> M B) :
  respects R m ->
  (forall w a, fst (m w) = Normal a -> Q a) ->
  (forall a, Q a -> respects R (k a)) ->
  respects R (bind m k).
Proof.
  intros Hm HQ Hk w. unfold bind. specialize (Hm w). specialize (HQ w).
  destruct (m w) as [[a|x|c|] w1]; simpl in *; auto.
  transitivity w1; [assumption | now apply Hk, HQ].
Qed.

Lemma respects_bind {A B} (m : M A) (k : A -> M B) :
  respects R m -> (forall a, respects R (k a)) -> respects R (bind m k).
Proof.
  intros Hm Hk w. unfold bind. specialize (Hm w).
  destruct (m w) as [[a|x|c|] w1]; simpl in *; auto.
  transitivity w1; [assumption | apply Hk].
Qed.

Lemma respects_try_except {A} (m : M A) (h : exn -> M A) :
  respects R m -> (forall x, respects R (h x)) -> respects R (try_except m h).
Proof.
  intros Hm Hh w. unfold try_except. specialize (Hm w).
  destruct (m w) as [[a|x|c|] w1]; simpl in *; auto.
  transitivity w1; [assumption | apply Hh].
Qed.

Lemma respects_try_finally {A} (m : M A) (fin : M unit) :
  respects R m -> respects R fin -> respects R (try_finally m fin).
Proof.
  intros Hm Hf w. unfold try_finally. specialize (Hm w).
  destruct (m w) as [r w1]; simpl in *. specialize (Hf w1).
  destruct r; auto;
    destruct (fin w1) as [[[]|y|d|] w2]; simpl in *;
    transitivity w1; assumption.
Qed.

Lemma respects_when_ c m : respects R m -> respects R (when_ c m).
Proof.
  intros Hm w. unfold when_. destruct (c w); [apply Hm | reflexivity].
Qed.

Lemma respects_ext ev r : respects R (emits ev) -> respects R (ext ev r).
Proof.
  intros H. unfold ext. apply respects_bind; [assumption|].
  intros _. destruct r; [apply respects_raise | apply respects_ret].
Qed.

End Respects.

#[local] Instance extends_preorder P : PreOrder (extends P).
Proof.
  split.
  - intros w. exists []. now rewrite app_nil_r.
  - intros w1 w2 w3 [evs1 [E1 F1]] [evs2 [E2 F2]]. exists (evs1 ++ evs2).
    split; [now rewrite E2, E1, app_assoc | now rewrite forallb_app, F1, F2].
Qed.

#[local] Instance same_level_preorder : PreOrder same_level.
Proof. split; unfold same_level; [easy | intros ? ? ?; congruence]. Qed.

Lemma only_emits P ev : P ev = true -> only P (emits ev).
Proof. intros H w. exists [ev]. simpl. now rewrite H. Qed.

Lemma only_act P f : (forall w, trace (f w) = trace w) -> only P (act f).
Proof. intros H w. exists []. simpl. now rewrite H, app_nil_r. Qed.

Lemma only_log P lvl fmt args :
  P (ELog lvl fmt args) = true -> only P (act (log lvl fmt args)).
Proof.
  intros H w. unfold act, log. simpl. destruct (isEnabledFor lvl w).
  - exists [ELog lvl fmt args]. simpl. now rewrite H.
  - exists []. simpl. now rewrite app_nil_r.
Qed.

Lemma only_ext P ev r : P ev = true -> only P (ext ev r).
Proof. intros H. apply respects_ext; [typeclasses eauto|]. now apply only_emits. Qed.

Lemma level_act f :
  (forall w, root_level (f w) = root_level w) -> respects same_level (act f).
Proof. intros H w. apply H. Qed.

Lemma level_emits ev : respects same_level (emits ev).
Proof. now apply level_act. Qed.

Lemma level_log lvl fmt args : respects same_level (act (log lvl fmt args)).
Proof. apply level_act. intros w. unfold log. now destruct (isEnabledFor lvl w). Qed.

Lemma level_ext ev r : respects same_level (ext ev r).
Proof. apply respects_ext; [typeclasses eauto|]. apply level_emits. Qed.

Create HintDb respects_db.
#[local] Hint Resolve level_emits level_log level_ext : respects_db.

(** Decompose a goal [respects R m] along the structure of [m]. *)
Ltac respects_step :=
  match goal with
  | |- respects _ (bind _ _) => apply respects_bind; [typeclasses eauto| |intros]
  | |- respects _ (try_except _ _) =>
      apply respects_try_except; [typeclasses eauto| |intros]
  | |- respects _ (try_finally _ _) =>
      apply respects_try_finally; [typeclasses eauto| |]
  | |- respects _ (when_ _ _) => apply respects_when_; [typeclasses eauto|]
  | |- respects _ (ret _) => apply respects_ret; typeclasses eauto
  | |- respects _ (raise _) => apply respects_raise; typeclasses eauto
  | |- respects _ (sys_exit _) => apply respects_sys_exit; typeclasses eauto
  | |- respects _ (yield _) => apply respects_yield; typeclasses eauto
  | |- respects (extends _) (emits _) => apply only_emits; reflexivity
  | |- respects (extends _) (ext _ _) => apply only_ext; reflexivity
  | |- respects (extends _) (logger_info _ _) => apply only_log; reflexivity
  | |- respects (extends _) (logger_warning _ _) => apply only_log; reflexivity
  | |- respects (extends _) (logger_error _ _) => apply only_log; reflexivity
  | |- respects (extends _) (act _) => apply only_act; reflexivity
  | |- respects same_level (logger_info _ _) => apply level_log
  | |- respects same_level (logger_warning _ _) => apply level_log
  | |- respects same_level (logger_error _ _) => apply level_log
  | |- respects same_level (act (set_running _)) => apply level_act; reflexivity
  | |- respects same_level (act (add_sig_handler _)) => apply level_act; reflexivity
  | |- respects same_level _ => solve [auto with respects_db]
  | |- respects _ (if ?b then _ else _) => destruct b
  | |- respects _ (match ?x with _ => _ end) => destruct x
  end.

Ltac respects_tac := repeat respects_step.

Lemma only_weaken (P Q : event -> bool) {A} (m : M A) :
  (forall ev, P ev = true -> Q ev = true) -> only P m -> only Q m.
Proof.
  intros HPQ Hm w. destruct (Hm w) as [evs [E F]]. exists evs. split; auto.
  rewrite forallb_forall in *. auto.
Qed.

(** Events that [m] cannot add are not added. *)
Lemma only_count (p : event -> bool) {A} (m : M A) w :
  only (fun ev => negb (p ev)) m ->
  count_ev p (trace (snd (m w))) = count_ev p (trace w).
Proof.
  intros Hm. destruct (Hm w) as [evs [E F]].
  rewrite E, count_ev_app, (count_ev_none _ _ F). lia.
Qed.

(** What is in the trace stays in the trace. *)
Lemma only_keeps (P : event -> bool) {A} (m : M A) w ev :
  only P m -> In ev (trace w) -> In ev (trace (snd (m w))).
Proof.
  intros Hm Hin. destruct (Hm w) as [evs [E F]].
  rewrite E. apply in_or_app. now left.
Qed.

(** ** The signal handler *)

Lemma same_config_refl w : same_config w w.
Proof. now repeat split. Qed.

Lemma same_config_trans w1 w2 w3 :
  same_config w1 w2 -> same_config w2 w3 -> same_config w1 w3.
Proof. unfold same_config. intros (?&?&?) (?&?&?). repeat split; congruence. Qed.

(** [_handlesig] returns, clears the flag, and otherwise only adds
    diagnostic output to the trace. *)
Lemma handlesig_world e s w :
  exists evs,
    forallb is_diagnostic evs = true /\
    (count_ev is_log evs <= 1)%nat /\
    _handlesig e s w =
      (Normal tt,
       mkWorld false (root_level w) (log_handlers w) (sig_handlers w)
               (trace w ++ evs)).
Proof.
  unfold _handlesig, bind, when_, logger_info, emits, act, log, isEnabledFor.
  destruct (s =? signal.SIGINT); [|destruct (s =? signal.SIGTERM)]; simpl;
    destruct (root_level w <=? logging.INFO) eqn:L; simpl; rewrite ?L; simpl;
    unfold set_running; simpl;
    first [ exists (@nil event); repeat split;
              [apply Nat.le_0_1 | now rewrite app_nil_r]
          | rewrite <- ?app_assoc; eexists; split; [|split; [|reflexivity]];
              [reflexivity | apply Nat.le_refl] ].
Qed.

Lemma only_handlesig e s : only is_diagnostic (_handlesig e s).
Proof.
  intros w. destruct (handlesig_world e s w) as [evs (F & _ & E)].
  exists evs. now rewrite E.
Qed.

Lemma only_deliver e s : only is_diagnostic (deliver e s).
Proof.
  intros w. unfold deliver. destruct (existsb _ _).
  - apply only_handlesig.
  - exists []. simpl. now rewrite app_nil_r.
Qed.

Lemma only_deliver_all e ss : only is_diagnostic (deliver_all e ss).
Proof.
  induction ss as [|s ss IH]; simpl.
  - apply respects_ret; typeclasses eauto.
  - apply respects_bind; [typeclasses eauto | apply only_deliver | intros; apply IH].
Qed.

(** Delivering signals always returns and leaves the configuration as it
    was. *)
Lemma deliver_all_normal e ss w :
  fst (deliver_all e ss w) = Normal tt /\
  same_config w (snd (deliver_all e ss w)).
Proof.
  revert w. induction ss as [|s ss IH]; intros w; simpl.
  - split; [reflexivity | apply same_config_refl].
  - unfold bind, deliver. destruct (existsb _ _).
    + destruct (handlesig_world e s w) as [evs (_ & _ & E)]. rewrite E.
      destruct (IH (mkWorld false (root_level w) (log_handlers w)
                            (sig_handlers w) (trace w ++ evs))) as [I1 I2].
      split; [exact I1|].
      eapply same_config_trans; [|exact I2]. now repeat split.
    + apply IH.
Qed.

(** The flag never goes back to [True]. *)
Lemma deliver_all_flag e ss w :
  _running w = false -> _running (snd (deliver_all e ss w)) = false.
Proof.
  revert w. induction ss as [|s ss IH]; intros w Hw; simpl; auto.
  unfold bind, deliver. destruct (existsb _ _).
  - destruct (handlesig_world e s w) as [evs (_ & _ & E)]. rewrite E.
    now apply IH.
  - now apply IH.
Qed.

(** A signal bound to [_handlesig] clears the flag. *)
Lemma deliver_all_handled e ss w s :
  In s ss -> In s (sig_handlers w) ->
  _running (snd (deliver_all e ss w)) = false.
Proof.
  revert w. induction ss as [|s' ss IH]; intros w Hin Hh; simpl; [easy|].
  unfold bind, deliver. destruct Hin as [->|Hin].
  - assert (X : existsb (Z.eqb s) (sig_handlers w) = true).
    { apply existsb_exists. exists s. split; [assumption | apply Z.eqb_refl]. }
    rewrite X. destruct (handlesig_world e s w) as [evs (_ & _ & E)]. rewrite E.
    now apply deliver_all_flag.
  - destruct (existsb _ _).
    + destruct (handlesig_world e s' w) as [evs (_ & _ & E)]. rewrite E.
      now apply deliver_all_flag.
    + now apply IH.
Qed.

(** ** Calls during which signals arrive *)

Lemma run_call_outcome e ev c w : fst (run_call e ev c w) = call_outcome c.
Proof.
  unfold run_call, bind, emits, act, call_outcome.
  destruct (deliver_all_normal e (signals c) (emit ev w)) as [H _].
  destruct (deliver_all e (signals c) (emit ev w)) as [r w1]. simpl in H.
  subst r. now destruct (raises c).
Qed.

Lemma run_call_trace e ev c w :
  exists evs,
    forallb is_diagnostic evs = true /\
    trace (snd (run_call e ev c w)) = trace w ++ ev :: evs.
Proof.
  unfold run_call, bind, emits, act.
  destruct (only_deliver_all e (signals c) (emit ev w)) as [evs [E F]].
  destruct (deliver_all_normal e (signals c) (emit ev w)) as [H _].
  destruct (deliver_all e (signals c) (emit ev w)) as [r w1]. simpl in *.
  subst r. exists evs. split; [assumption|].
  destruct (raises c); simpl; now rewrite E, <- app_assoc.
Qed.

Lemma run_call_config e ev c w : same_config w (snd (run_call e ev c w)).
Proof.
  unfold run_call, bind, emits, act.
  destruct (deliver_all_normal e (signals c) (emit ev w)) as [H C].
  destruct (deliver_all e (signals c) (emit ev w)) as [r w1]. simpl in *.
  subst r. destruct (raises c); exact C.
Qed.

Lemma run_call_flag e ev c w :
  _running w = false -> _running (snd (run_call e ev c w)) = false.
Proof.
  intros Hw. unfold run_call, bind, emits, act.
  pose proof (deliver_all_flag e (signals c) (emit ev w) Hw) as F.
  destruct (deliver_all_normal e (signals c) (emit ev w)) as [H _].
  destruct (deliver_all e (signals c) (emit ev w)) as [r w1]. simpl in *.
  subst r. now destruct (raises c).
Qed.

Lemma run_call_handled e ev c w s :
  In s (signals c) -> In s (sig_handlers w) ->
  _running (snd (run_call e ev c w)) = false.
Proof.
  intros Hin Hh. unfold run_call, bind, emits, act.
  pose proof (deliver_all_handled e (signals c) (emit ev w) s Hin Hh) as F.
  destruct (deliver_all_normal e (signals c) (emit ev w)) as [H _].
  destruct (deliver_all e (signals c) (emit ev w)) as [r w1]. simpl in *.
  subst r. now destruct (raises c).
Qed.

Lemma only_run_call (P : event -> bool) e ev c :
  P ev = true -> (forall x, is_diagnostic x = true -> P x = true) ->
  only P (run_call e ev c).
Proof.
  intros Hev Hd w. destruct (run_call_trace e ev c w) as [evs [F E]].
  exists (ev :: evs). split; [assumption|]. simpl. rewrite Hev. simpl.
  rewrite forallb_forall in *. auto.
Qed.

(** ** The wait loop *)

Lemma wait_loop_stopped e sch w :
  _running w = false -> wait_loop e sch w = (Normal tt, w).
Proof. intros H. destruct sch; simpl; now rewrite H. Qed.

(** The loop returns only with the flag cleared, and never through
    [sys.exit]. *)
Lemma wait_loop_outcome e sch w :
  match fst (wait_loop e sch w) with
  | Normal _ => _running (snd (wait_loop e sch w)) = false
  | SysExit _ => False
  | _ => True
  end.
Proof.
  revert w. induction sch as [|c sch IH]; intros w; simpl.
  - destruct (_running w) eqn:R; simpl; auto.
  - destruct (_running w) eqn:R; simpl; auto.
    pose proof (run_call_outcome e (ESleep 1) c w) as O.
    destruct (run_call e (ESleep 1) c w) as [r w1]. simpl in O. subst r.
    unfold call_outcome. destruct (raises c); simpl; auto. apply IH.
Qed.

Lemma only_wait_loop e sch :
  only (fun ev => is_sleep ev || is_diagnostic ev) (wait_loop e sch).
Proof.
  induction sch as [|c sch IH]; intros w; simpl.
  - exists []. destruct (_running w); simpl; now rewrite app_nil_r.
  - destruct (_running w); [|exists []; simpl; now rewrite app_nil_r].
    assert (Hc : only (fun ev => is_sleep ev || is_diagnostic ev)
                      (run_call e (ESleep 1) c)).
    { apply only_run_call; [reflexivity|]. intros x Hx. rewrite Hx.
      apply orb_true_r. }
    destruct (Hc w) as [evs1 [E1 F1]].
    destruct (run_call e (ESleep 1) c w) as [[[]|x|d|] w1]; simpl in *;
      try (now exists evs1).
    destruct (IH w1) as [evs2 [E2 F2]]. exists (evs1 ++ evs2). split.
    + now rewrite E2, E1, app_assoc.
    + now rewrite forallb_app, F1, F2.
Qed.

Lemma wait_phase_outcome e w :
  fst (wait_phase e w) = Normal tt \/ fst (wait_phase e w) = Hang.
Proof.
  unfold wait_phase, try_except.
  pose proof (wait_loop_outcome e (sleeps e) w) as O.
  destruct (wait_loop e (sleeps e) w) as [[[]|x|d|] w1]; simpl in *; auto.
  contradiction.
Qed.

Lemma only_wait_phase e :
  only (fun ev => negb (is_shutdown ev || is_startup ev)) (wait_phase e).
Proof.
  unfold wait_phase. respects_tac.
  eapply only_weaken; [|apply only_wait_loop].
  intros [] H; simpl in *; try discriminate; reflexivity.
Qed.

(** ** The run loop *)

(** A startup hook that raises ends the run loop at once. *)
Lemma run_loop_startup_raises e su sd w x :
  raises su = Some x ->
  _daemon_run_loop e su sd w = (Raised x, started e su w).
Proof.
  intros H. unfold _daemon_run_loop, started.
  unfold bind at 1. unfold signal_signal at 1. unfold bind at 1. simpl.
  unfold bind at 1. unfold signal_signal at 1. unfold bind at 1. simpl.
  unfold bind at 1. fold (installed w).
  pose proof (run_call_outcome e EStartupHook su (installed w)) as O.
  destruct (run_call e EStartupHook su (installed w)) as [r w1].
  simpl in *. subst r. unfold call_outcome. now rewrite H.
Qed.

(** After a startup hook that returns, the wait phase runs, and the
    shutdown hook is what follows it. *)
Lemma run_loop_startup_returns e su sd w :
  raises su = None ->
  _daemon_run_loop e su sd w =
    if ends (fst (wait_phase e (started e su w)))
    then run_call e EShutdownHook sd (snd (wait_phase e (started e su w)))
    else (Hang, snd (wait_phase e (started e su w))).
Proof.
  intros H. unfold _daemon_run_loop, started.
  unfold bind at 1. unfold signal_signal at 1. unfold bind at 1. simpl.
  unfold bind at 1. unfold signal_signal at 1. unfold bind at 1. simpl.
  unfold bind at 1. fold (installed w).
  pose proof (run_call_outcome e EStartupHook su (installed w)) as O.
  destruct (run_call e EStartupHook su (installed w)) as [r w1].
  simpl in *. subst r. unfold call_outcome. rewrite H.
  unfold try_finally.
  destruct (wait_phase_outcome e w1) as [N|N];
    destruct (wait_phase e w1) as [r2 w2]; simpl in *; subst r2; simpl; auto.
  pose proof (run_call_outcome e EShutdownHook sd w2) as O2.
  destruct (run_call e EShutdownHook sd w2) as [[[]|y|d|] w3]; simpl in *; auto.
Qed.

Lemma started_trace e su w :
  exists evs,
    forallb is_diagnostic evs = true /\
    trace (started e su w) =
      trace w ++ ESignalInstall signal.SIGTERM :: ESignalInstall signal.SIGINT
              :: EStartupHook :: evs.
Proof.
  unfold started.
  destruct (run_call_trace e EStartupHook su (installed w)) as [evs [F E]].
  exists evs. split; [assumption|]. rewrite E. simpl.
  now rewrite <- !app_assoc.
Qed.

Lemma started_handlers e su w :
  sig_handlers (started e su w) =
    signal.SIGINT :: signal.SIGTERM :: sig_handlers w.
Proof.
  unfold started.
  destruct (run_call_config e EStartupHook su (installed w)) as (_&_&H).
  now rewrite H.
Qed.

Lemma only_daemon_run_loop e su sd :
  only (fun _ => true) (_daemon_run_loop e su sd).
Proof.
  unfold _daemon_run_loop, signal_signal. respects_tac;
    try (apply only_run_call; reflexivity).
  eapply only_weaken; [|apply only_wait_phase]. reflexivity.
Qed.


(** ** Sleeps during which nothing happens *)

Lemma deliver_all_unhandled e ss w :
  forallb (fun s => negb (existsb (Z.eqb s) (sig_handlers w))) ss = true ->
  deliver_all e ss w = (Normal tt, w).
Proof.
  induction ss as [|s ss IH]; simpl; [reflexivity|].
  intros H. apply andb_true_iff in H as [H1 H2].
  unfold bind, deliver. apply negb_true_iff in H1. rewrite H1. now apply IH.
Qed.

Lemma run_call_quiet e ev c w :
  is_quiet (sig_handlers w) c = true ->
  run_call e ev c w = (Normal tt, emit ev w).
Proof.
  unfold is_quiet, run_call, bind, emits, act.
  destruct (raises c); [discriminate|]. intros H.
  now rewrite (deliver_all_unhandled e (signals c) (emit ev w) H).
Qed.

Lemma slept_fields n w :
  _running (slept n w) = _running w /\
  sig_handlers (slept n w) = sig_handlers w /\
  count_ev is_sleep (trace (slept n w)) = (count_ev is_sleep (trace w) + n)%nat.
Proof.
  revert w. induction n as [|n IH]; intros w; simpl.
  - repeat split; lia.
  - destruct (IH (emit (ESleep 1) w)) as (A & B & C). simpl in *.
    repeat split; auto. rewrite C, count_ev_app.
    change (count_ev is_sleep [ESleep 1]) with 1%nat. lia.
Qed.

Lemma wait_loop_quiet e pre rest w :
  _running w = true ->
  forallb (is_quiet (sig_handlers w)) pre = true ->
  wait_loop e (pre ++ rest) w = wait_loop e rest (slept (List.length pre) w).
Proof.
  revert w. induction pre as [|c pre IH]; intros w R Q; simpl; [reflexivity|].
  simpl in Q. apply andb_true_iff in Q as [Q1 Q2].
  rewrite R, (run_call_quiet _ _ _ _ Q1). now apply IH.
Qed.

Lemma stops_handled c hs :
  stops c = true ->
  exists s, In s (signals c) /\ In s (signal.SIGINT :: signal.SIGTERM :: hs).
Proof.
  unfold stops. intros H. apply existsb_exists in H as [s [Hin Hs]].
  exists s. split; [assumption|].
  apply orb_true_iff in Hs as [Hs|Hs]; apply Z.eqb_eq in Hs; subst; simpl; auto.
Qed.

Lemma level_run_call e ev c : respects same_level (run_call e ev c).
Proof. intros w. now destruct (run_call_config e ev c w) as (H&_&_). Qed.

Lemma level_wait_loop e sch : respects same_level (wait_loop e sch).
Proof.
  induction sch as [|c sch IH]; intros w; simpl.
  - now destruct (_running w).
  - destruct (_running w); [|reflexivity].
    pose proof (level_run_call e (ESleep 1) c w) as L.
    destruct (run_call e (ESleep 1) c w) as [[[]|x|d|] w1]; simpl in *; auto.
    transitivity w1; [assumption | apply IH].
Qed.

Lemma level_daemon_run_loop e su sd :
  respects same_level (_daemon_run_loop e su sd).
Proof.
  unfold _daemon_run_loop, wait_phase, signal_signal. respects_tac;
    first [apply level_run_call | apply level_wait_loop].
Qed.

(** * The way to the run loop *)

Lemma check_pyudev_outcome e w :
  fst (check_pyudev e w) =
    if pyudev_missing e
    then SysExit (ExitMsg (NAME_lower e
                   ++ "-daemon: missing required system package python3-pyudev"))
    else Normal tt.
Proof.
  unfold check_pyudev, pyudev_missing, bind, emits, act.
  destruct (_ || _); simpl; [reflexivity|].
  now destruct (pyudev_importable e).
Qed.

Lemma parse_arguments_daemon e ns w :
  parse_args e = Parsed ns -> help_actions ns = false ->
  fst (_parse_arguments e w) = Normal (Some ns) /\
  root_level (snd (_parse_arguments e w)) = root_threshold (debug ns).
Proof.
  intros Hp Hh. unfold _parse_arguments. rewrite Hp, Hh.
  unfold bind, emits, act, logger_info, ret.
  destruct (_ || _); destruct (is_empty _); simpl; split; try reflexivity;
    unfold log; destruct (isEnabledFor _ _); reflexivity.
Qed.

Lemma fork_step_outcome r msg w : fst (fork_step r msg w) = fork_outcome r.
Proof.
  unfold fork_step, fork_outcome, bind, emits, act, logger_error.
  destruct r as [pid|x]; simpl; [now destruct (0 <? pid) | reflexivity].
Qed.

Lemma ext_outcome ev r w : fst (ext ev r w) = step_outcome r.
Proof. unfold ext, bind, emits, act. now destruct r. Qed.

Lemma bind_and_then (m k : M unit) w :
  fst ((m ;; k) w) = and_then (fst (m w)) (fst (k (snd (m w)))).
Proof. unfold bind. now destruct (m w) as [[[]|x|c|] w1]. Qed.

Lemma and_then_assoc a b c :
  and_then (and_then a b) c = and_then a (and_then b c).
Proof. now destruct a. Qed.

Lemma daemonize_outcome e w : fst (_daemonize e w) = detach_outcome e.
Proof.
  unfold _daemonize, detach_outcome, session_outcome.
  rewrite !bind_and_then, !fork_step_outcome, !ext_outcome.
  now rewrite !and_then_assoc.
Qed.

Lemma write_pid_file_normal e p w : fst (_write_pid_file e p w) = Normal tt.
Proof.
  unfold _write_pid_file. destruct p as [p|]; [|reflexivity].
  destruct (negb _); [|reflexivity].
  unfold try_except, bind, ext, emits, act, logger_info, logger_error, raise, ret.
  destruct (open_w e p); simpl; [reflexivity|].
  destruct (file_write e p); reflexivity.
Qed.

Lemma udev_advisory_normal e w : fst (udev_advisory e w) = Normal tt.
Proof. unfold udev_advisory, when_. now destruct (_ && _). Qed.

Lemma level_check_pyudev e : respects same_level (check_pyudev e).
Proof. unfold check_pyudev. respects_tac. Qed.

Lemma level_daemonize e : respects same_level (_daemonize e).
Proof. unfold _daemonize, fork_step. respects_tac. Qed.

Lemma level_write_pid_file e p : respects same_level (_write_pid_file e p).
Proof. unfold _write_pid_file. respects_tac. Qed.

Lemma level_udev_advisory e : respects same_level (udev_advisory e).
Proof. unfold udev_advisory. respects_tac. Qed.

Lemma level_daemon_sequence e ns : respects same_level (daemon_sequence e ns).
Proof. unfold daemon_sequence. respects_tac. apply level_daemon_run_loop. Qed.

(** [main] in daemon mode is [before_try], the [try] suite, and
    [conclude]. *)
Lemma main_split e ns w :
  daemon_mode e ns ->
  main e w =
    match before_try e ns w with
    | (Normal _, w1) => conclude e ns (daemon_sequence e ns w1)
    | (Raised x, w1) => (Raised x, w1)
    | (SysExit c, w1) => (SysExit c, w1)
    | (Hang, w1) => (Hang, w1)
    end.
Proof.
  intros (Hp & Hh & Ha). unfold main, before_try, before_pid, run_daemon, bind.
  destruct (check_pyudev e w) as [[[]|x|c|] w0]; try reflexivity.
  destruct (parse_arguments_daemon e ns w0 Hp Hh) as [P _].
  destruct (_parse_arguments e w0) as [r w1]. simpl in P. subst r.
  rewrite Ha. simpl.
  destruct ((if negb (no_fork ns) then _daemonize e else ret tt) w1)
    as [[[]|x|c|] w2]; try reflexivity.
  destruct (_write_pid_file e (pid_file ns) w2) as [[[]|x|c|] w3];
    try reflexivity.
  destruct (udev_advisory e w3) as [[[]|x|c|] w4]; try reflexivity.
  unfold try_except, conclude, close_fails, temp_close, bind, logger_error,
    act, sys_exit, raise, emits, ret.
  destruct (daemon_sequence e ns w4) as [[[]|x|c|] w5]; try reflexivity.
  now destruct (negb (no_fork ns) && negb (close_tolerates_missing e)).
Qed.

Lemma daemon_args_mode e ns : daemon_args e = Some ns -> daemon_mode e ns.
Proof.
  unfold daemon_args, daemon_mode. destruct (parse_args e) as [ns'|]; [|easy].
  destruct (help_actions ns') eqn:H; simpl; [easy|].
  destruct (action ns') eqn:A; simpl; [|easy].
  intros [= <-]. auto.
Qed.

Lemma enters_try_inv e ns :
  enters_try e = Some ns ->
  daemon_args e = Some ns /\ pyudev_missing e = false /\ stays e ns = true.
Proof.
  unfold enters_try. destruct (daemon_args e) as [ns'|]; [|easy].
  destruct (pyudev_missing e); simpl; [easy|].
  destruct (stays e ns') eqn:S; [|easy]. intros [= <-]. auto.
Qed.

Lemma reaches_run_loop_inv e ns :
  reaches_run_loop e = Some ns ->
  enters_try e = Some ns /\ setup_scanner e = None /\
  watch_suspend_resume e (restart_on_wake_up ns) = None.
Proof.
  unfold reaches_run_loop. destruct (enters_try e) as [ns'|]; [|easy].
  destruct (setup_scanner e); simpl; [easy|].
  destruct (watch_suspend_resume e _) eqn:W; simpl; [easy|].
  intros [= <-]. auto.
Qed.

(** How the part of [main] before [_write_pid_file] ends. *)
Lemma before_pid_outcome e ns w :
  daemon_mode e ns ->
  fst (before_pid e ns w) =
    if pyudev_missing e
    then SysExit (ExitMsg (NAME_lower e
                   ++ "-daemon: missing required system package python3-pyudev"))
    else if no_fork ns then Normal tt else detach_outcome e.
Proof.
  intros (Hp & Hh & Ha). unfold before_pid, bind.
  pose proof (check_pyudev_outcome e w) as C.
  destruct (check_pyudev e w) as [r0 w0]. simpl in C. subst r0.
  destruct (pyudev_missing e); [reflexivity|].
  destruct (parse_arguments_daemon e ns w0 Hp Hh) as [P _].
  destruct (_parse_arguments e w0) as [r w1]. simpl in P. subst r.
  destruct (no_fork ns); simpl; [reflexivity|].
  pose proof (daemonize_outcome e w1) as D.
  destruct (_daemonize e w1) as [[[]|x|c|] w2]; simpl in *; now rewrite <- D.
Qed.

(** Once the arguments are parsed the root logger keeps its level. *)
Lemma before_pid_level e ns w :
  daemon_mode e ns -> pyudev_missing e = false ->
  root_level (snd (before_pid e ns w)) = root_threshold (debug ns).
Proof.
  intros (Hp & Hh & Ha) Hm. unfold before_pid, bind.
  pose proof (check_pyudev_outcome e w) as C. rewrite Hm in C.
  destruct (check_pyudev e w) as [r0 w0]. simpl in C. subst r0.
  destruct (parse_arguments_daemon e ns w0 Hp Hh) as [P L].
  destruct (_parse_arguments e w0) as [r w1]. simpl in P, L. subst r.
  simpl. rewrite <- L.
  assert (H : respects same_level
                (if negb (no_fork ns) then _daemonize e else ret tt)).
  { destruct (negb _); [apply level_daemonize | apply respects_ret];
      typeclasses eauto. }
  specialize (H w1).
  destruct ((if negb (no_fork ns) then _daemonize e else ret tt) w1)
    as [[[]|x|c|] w2]; exact H.
Qed.

Lemma before_try_outcome e ns w :
  fst (before_try e ns w) =
    match fst (before_pid e ns w) with
    | Normal _ => Normal tt
    | r => r
    end.
Proof.
  unfold before_try, bind.
  destruct (before_pid e ns w) as [[[]|x|c|] w1]; try reflexivity.
  pose proof (write_pid_file_normal e (pid_file ns) w1) as W.
  destruct (_write_pid_file e (pid_file ns) w1) as [r w2]. simpl in *. subst r.
  apply udev_advisory_normal.
Qed.

Lemma before_try_level e ns w :
  daemon_mode e ns -> pyudev_missing e = false ->
  root_level (snd (before_try e ns w)) = root_threshold (debug ns).
Proof.
  intros Hd Hm. rewrite <- (before_pid_level e ns w Hd Hm).
  unfold before_try, bind.
  destruct (before_pid e ns w) as [[[]|x|c|] w1]; try reflexivity.
  pose proof (level_write_pid_file e (pid_file ns) w1) as W.
  destruct (_write_pid_file e (pid_file ns) w1) as [[[]|x|c|] w2];
    try exact W.
  simpl in *. rewrite <- W. apply level_udev_advisory.
Qed.

(** The process that is followed gets to the [try] statement. *)
Lemma enters_try_normal e ns w :
  enters_try e = Some ns -> fst (before_try e ns w) = Normal tt.
Proof.
  intros H. destruct (enters_try_inv e ns H) as (Ha & Hm & Hs).
  rewrite before_try_outcome,
    (before_pid_outcome e ns w (daemon_args_mode e ns Ha)), Hm.
  unfold stays in Hs. destruct (no_fork ns); [reflexivity|]. simpl in Hs.
  now destruct (detach_outcome e) as [[]|x|c|].
Qed.

Lemma daemon_sequence_loop e ns w :
  setup_scanner e = None ->
  watch_suspend_resume e (restart_on_wake_up ns) = None ->
  daemon_sequence e ns w =
    _daemon_run_loop e (start_all e) (stop_all e) (prepared ns w).
Proof.
  intros H1 H2. unfold daemon_sequence. rewrite H1, H2. reflexivity.
Qed.


(** The level that [_parse_arguments] gives the root logger lets every
    error through. *)
Lemma root_threshold_error d w :
  root_level w = root_threshold d -> isEnabledFor logging.ERROR w = true.
Proof.
  unfold isEnabledFor, root_threshold, log_level, logging.ERROR, logging.WARNING.
  intros ->. apply Z.leb_le. lia.
Qed.

(** [main], when it gets to the run loop. *)
Lemma main_run_loop e ns w :
  reaches_run_loop e = Some ns ->
  main e w =
    conclude e ns (_daemon_run_loop e (start_all e) (stop_all e) (at_loop e ns w))
  /\ isEnabledFor logging.ERROR (at_loop e ns w) = true.
Proof.
  intros H. destruct (reaches_run_loop_inv e ns H) as (He & Hs & Hw).
  destruct (enters_try_inv e ns He) as (Ha & Hm & _).
  pose proof (daemon_args_mode e ns Ha) as Hd.
  split.
  - rewrite (main_split e ns w Hd).
    pose proof (enters_try_normal e ns w He) as N. unfold at_loop.
    destruct (before_try e ns w) as [r w1]. simpl in *. subst r.
    now rewrite daemon_sequence_loop.
  - apply (root_threshold_error (debug ns)). unfold at_loop. simpl.
    now apply before_try_level.
Qed.

(** * Counting hook calls *)

Lemma count_ev_diagnostic p evs :
  (forall ev, is_diagnostic ev = true -> p ev = false) ->
  forallb is_diagnostic evs = true -> count_ev p evs = 0%nat.
Proof.
  intros Hp F. apply count_ev_none. rewrite forallb_forall in *.
  intros ev Hin. now rewrite (Hp ev (F ev Hin)).
Qed.

Lemma diagnostic_not_shutdown ev :
  is_diagnostic ev = true -> is_shutdown ev = false.
Proof. now destruct ev. Qed.

Lemma diagnostic_not_sleep ev :
  is_diagnostic ev = true -> is_sleep ev = false.
Proof. now destruct ev. Qed.

Lemma started_shutdown_count e su w :
  count_ev is_shutdown (trace (started e su w)) = count_ev is_shutdown (trace w).
Proof.
  destruct (started_trace e su w) as [evs [F E]]. rewrite E, count_ev_app.
  change (ESignalInstall signal.SIGTERM :: ESignalInstall signal.SIGINT
            :: EStartupHook :: evs)
    with ([ESignalInstall signal.SIGTERM; ESignalInstall signal.SIGINT;
           EStartupHook] ++ evs).
  rewrite count_ev_app, (count_ev_diagnostic _ _ diagnostic_not_shutdown F).
  change (count_ev is_shutdown [ESignalInstall signal.SIGTERM;
            ESignalInstall signal.SIGINT; EStartupHook]) with 0%nat.
  lia.
Qed.

Lemma wait_phase_shutdown_count e w :
  count_ev is_shutdown (trace (snd (wait_phase e w))) =
  count_ev is_shutdown (trace w).
Proof.
  apply only_count. eapply only_weaken; [|apply only_wait_phase].
  intros ev H. simpl in H. apply negb_true_iff in H.
  apply orb_false_iff in H as [H _]. now rewrite H.
Qed.

Lemma run_call_shutdown_count e sd w :
  count_ev is_shutdown (trace (snd (run_call e EShutdownHook sd w))) =
  (count_ev is_shutdown (trace w) + 1)%nat.
Proof.
  destruct (run_call_trace e EShutdownHook sd w) as [evs [F E]].
  rewrite E. change (EShutdownHook :: evs) with ([EShutdownHook] ++ evs).
  rewrite !count_ev_app, (count_ev_diagnostic _ _ diagnostic_not_shutdown F).
  change (count_ev is_shutdown [EShutdownHook]) with 1%nat. lia.
Qed.

(** * The run loop: hooks, flag and wait *)

(** C1, as stated, fails: with a startup hook that raises,
    [_daemon_run_loop] ends with that exception and the shutdown hook has
    not been called. *)
Lemma startup_failure_skips_shutdown :
  fst (_daemon_run_loop Examples.failing_startup
         (start_all Examples.failing_startup) (stop_all Examples.failing_startup)
         initial_world)
  = Raised Examples.boom /\
  count_ev is_shutdown
    (trace (snd (_daemon_run_loop Examples.failing_startup
                   (start_all Examples.failing_startup)
                   (stop_all Examples.failing_startup) initial_world)))
  = 0%nat.
Proof. vm_compute. split; reflexivity. Qed.

(** C1, amended: the number of calls of the shutdown hook made by
    [_daemon_run_loop] is exactly one on every execution that ends (by a
    return or by an exception) after the startup hook has returned; it is
    zero when the startup hook raises, and zero as long as the wait loop
    goes on. *)
Theorem shutdown_hook_calls e su sd w :
  count_ev is_shutdown (trace (snd (_daemon_run_loop e su sd w))) =
    (count_ev is_shutdown (trace w) +
     match raises su with
     | Some _ => 0
     | None => if ends (fst (_daemon_run_loop e su sd w)) then 1 else 0
     end)%nat.
Proof.
  destruct (raises su) as [x|] eqn:R.
  - rewrite (run_loop_startup_raises e su sd w x R). simpl.
    rewrite started_shutdown_count. lia.
  - rewrite (run_loop_startup_returns e su sd w R).
    destruct (ends (fst (wait_phase e (started e su w)))) eqn:E.
    + rewrite run_call_shutdown_count, wait_phase_shutdown_count,
        started_shutdown_count, run_call_outcome.
      unfold call_outcome. now destruct (raises sd).
    + simpl. rewrite wait_phase_shutdown_count, started_shutdown_count. lia.
Qed.

(** C2, as stated, fails: with a shutdown hook that raises,
    [_daemon_run_loop] does not return normally; it ends with that
    exception, and has logged nothing. *)
Lemma shutdown_failure_escapes :
  fst (_daemon_run_loop Examples.failing_shutdown
         (start_all Examples.failing_shutdown) (stop_all Examples.failing_shutdown)
         initial_world)
  = Raised Examples.boom /\
  fst (_daemon_run_loop Examples.failing_shutdown
         (start_all Examples.failing_shutdown) (stop_all Examples.failing_shutdown)
         initial_world)
  <> Normal tt /\
  trace (snd (_daemon_run_loop Examples.failing_shutdown
                (start_all Examples.failing_shutdown)
                (stop_all Examples.failing_shutdown) initial_world))
  = trace initial_world ++
    [ESignalInstall signal.SIGTERM; ESignalInstall signal.SIGINT;
     EStartupHook; ESleep 1; ESleep 1; EShutdownHook].
Proof. vm_compute. repeat split. discriminate. Qed.

(** C2, amended: an exception raised by the shutdown hook propagates out
    of [_daemon_run_loop] (whenever the startup hook has returned and the
    wait is over); in [main] it reaches the handler of the daemon sequence,
    which logs it with its traceback and leaves through [sys.exit(1)], so
    that the process exits with status 1. *)
Theorem shutdown_exception_propagates e ns w x :
  reaches_run_loop e = Some ns ->
  raises (start_all e) = None ->
  raises (stop_all e) = Some x ->
  ends (fst (main e w)) = true ->
  fst (_daemon_run_loop e (start_all e) (stop_all e) (at_loop e ns w)) = Raised x /\
  fst (main e w) = SysExit (ExitCode 1) /\
  exit_status (fst (main e w)) = Some 1 /\
  In (ELog logging.ERROR (NAME_lower e ++ "-daemon: error: " ++ format_exc x) [])
     (trace (snd (main e w))).
Proof.
  intros H Hsu Hsd. destruct (main_run_loop e ns w H) as [-> L].
  rewrite (run_loop_startup_returns e _ _ _ Hsu).
  destruct (ends (fst (wait_phase e _))).
  - intros _.
    pose proof (run_call_outcome e EShutdownHook (stop_all e)
                  (snd (wait_phase e (started e (start_all e) (at_loop e ns w)))))
      as O.
    pose proof (level_run_call e EShutdownHook (stop_all e)
                  (snd (wait_phase e (started e (start_all e) (at_loop e ns w)))))
      as L1.
    assert (L2 : root_level
                   (snd (wait_phase e (started e (start_all e) (at_loop e ns w))))
                 = root_level (at_loop e ns w)).
    { transitivity (root_level (started e (start_all e) (at_loop e ns w))).
      - unfold wait_phase.
        apply (respects_try_except same_level); [apply level_wait_loop|].
        intros y. apply level_log.
      - unfold started.
        now destruct (run_call_config e EStartupHook (start_all e)
                        (installed (at_loop e ns w))) as (C&_&_). }
    destruct (run_call e EShutdownHook (stop_all e) _) as [r w3].
    simpl in O. unfold call_outcome in O. rewrite Hsd in O. subst r.
    simpl. repeat split.
    unfold log, isEnabledFor in *. unfold same_level in L1. simpl in L1.
    rewrite L1, L2, L. simpl. apply in_or_app. right. now left.
  - simpl. discriminate.
Qed.

Lemma shutdown_exception_propagates_witness :
  fst (main Examples.failing_shutdown initial_world) = SysExit (ExitCode 1).
Proof.
  exact (proj1 (proj2
           (shutdown_exception_propagates Examples.failing_shutdown
              Examples.daemon_ns initial_world Examples.boom
              eq_refl eq_refl eq_refl eq_refl))).
Defined.

(** C7, as stated, fails: five repetitions of [-d] give the root logger
    (and the console handler) the level -10, below DEBUG and below NOTSET;
    and the first repetition does not lower the level of the root logger at
    all. *)
Lemma debug_threshold_has_no_floor :
  root_threshold 5 = -10 /\
  stream_threshold 5 = -10 /\
  root_threshold 5 < logging.NOTSET /\
  logging.NOTSET < logging.DEBUG /\
  root_threshold 1 = root_threshold 0.
Proof. vm_compute. repeat split. Qed.

(** C7, amended: each repetition of [-d] lowers the computed log level
    (the level of the console handler) by exactly one level, that is by 10,
    with no floor; the level of the root logger is that value capped at
    WARNING, so it never rises, goes down by exactly one level with every
    repetition after the first, and has no floor either; only the level of
    the handler of the temporary file is kept between INFO and WARNING. *)
Theorem debug_lowers_thresholds (d : nat) :
  stream_threshold (S d) = stream_threshold d - 10 /\
  root_threshold (S d) <= root_threshold d /\
  root_threshold (S (S d)) = root_threshold (S d) - 10 /\
  logging.INFO <= file_threshold d <= logging.WARNING /\
  (forall floor : Z, exists n : nat,
      root_threshold n < floor /\ stream_threshold n < floor).
Proof.
  unfold stream_threshold, root_threshold, file_threshold, log_level,
    logging.ERROR, logging.WARNING, logging.INFO.
  repeat split; try lia.
  intros floor. exists (Z.to_nat (Z.max 0 (40 - floor)) + 1)%nat. lia.
Qed.



(** C9: when a termination signal is delivered during a sleep of the wait
    loop (the sleeps before it being uneventful), the sleep in progress is
    the last one: the wait is over when that sleep is, with the flag
    [False], and [_daemon_run_loop] goes on with the shutdown hook.  With
    the flag [False] the loop returns at once whatever the schedule, so it
    never sleeps again; when the flag is already [False] at loop entry
    there is no sleep at all. *)
Theorem wait_loop_stops_when_flag_cleared e su sd w pre c post :
  raises su = None ->
  sleeps e = pre ++ c :: post ->
  forallb (is_quiet (signal.SIGINT :: signal.SIGTERM :: sig_handlers w)) pre
    = true ->
  stops c = true ->
  exists w2,
    wait_phase e (started e su w) = (Normal tt, w2) /\
    _running w2 = false /\
    (forall sch, wait_loop e sch w2 = (Normal tt, w2)) /\
    count_ev is_sleep (trace w2) =
      (count_ev is_sleep (trace (started e su w)) +
       if _running (started e su w) then List.length pre + 1 else 0)%nat /\
    _daemon_run_loop e su sd w = run_call e EShutdownHook sd w2.
Proof.
  intros Hsu Hsch Hpre Hstop.
  assert (G : forall w2,
             wait_phase e (started e su w) = (Normal tt, w2) ->
             _daemon_run_loop e su sd w = run_call e EShutdownHook sd w2).
  { intros w2 Hw. rewrite (run_loop_startup_returns e su sd w Hsu).
    now rewrite Hw. }
  unfold wait_phase, try_except in *.
  destruct (_running (started e su w)) eqn:R.
  - rewrite <- (started_handlers e su w) in Hpre.
    pose proof (wait_loop_quiet e pre (c :: post) _ R Hpre) as Q.
    rewrite <- Hsch in Q.
    destruct (slept_fields (List.length pre) (started e su w)) as (S1 & S2 & S3).
    set (ws := slept (List.length pre) (started e su w)) in *.
    simpl in Q. rewrite S1, R in Q.
    destruct (stops_handled c (sig_handlers w) Hstop) as [s [Hin Hh]].
    rewrite <- (started_handlers e su w), <- S2 in Hh.
    pose proof (run_call_handled e (ESleep 1) c ws s Hin Hh) as F.
    pose proof (run_call_outcome e (ESleep 1) c ws) as O.
    destruct (run_call_trace e (ESleep 1) c ws) as [evs [D T]].
    destruct (run_call e (ESleep 1) c ws) as [r w2]. simpl in *.
    assert (N : count_ev is_sleep (trace w2) =
                (count_ev is_sleep (trace (started e su w))
                 + (List.length pre + 1))%nat).
    { rewrite T. change (ESleep 1 :: evs) with ([ESleep 1] ++ evs).
      rewrite !count_ev_app, (count_ev_diagnostic _ _ diagnostic_not_sleep D), S3.
      change (count_ev is_sleep [ESleep 1]) with 1%nat. lia. }
    unfold call_outcome in O. destruct (raises c) as [y|]; subst r.
    + rewrite Q in *. unfold logger_error, act in *.
      exists (log logging.ERROR "daemon loop error: %s" [AExn y] w2).
      assert (F' : _running (log logging.ERROR "daemon loop error: %s"
                               [AExn y] w2) = false).
      { unfold log. now destruct (isEnabledFor _ _). }
      repeat split; auto.
      * intros sch. now apply wait_loop_stopped.
      * rewrite <- N. unfold log. destruct (isEnabledFor _ _); [|reflexivity].
        simpl. rewrite count_ev_app.
        change (count_ev is_sleep [ELog logging.ERROR "daemon loop error: %s"
                                     [AExn y]]) with 0%nat. lia.
    + rewrite (wait_loop_stopped e post w2 F) in Q. rewrite Q in *.
      exists w2. repeat split; auto.
      intros sch. now apply wait_loop_stopped.
  - exists (started e su w).
    pose proof (wait_loop_stopped e (sleeps e) _ R) as Q. rewrite Q in *.
    repeat split; auto.
    intros sch. now apply wait_loop_stopped.
Qed.

Lemma wait_loop_stops_when_flag_cleared_witness :
  _daemon_run_loop Examples.quiet returns_quietly returns_quietly initial_world
  = run_call Examples.quiet EShutdownHook returns_quietly
      (snd (wait_phase Examples.quiet
              (started Examples.quiet returns_quietly initial_world))).
Proof.
  destruct (wait_loop_stops_when_flag_cleared Examples.quiet
              returns_quietly returns_quietly initial_world
              [returns_quietly] (mkCall [signal.SIGTERM] None) []
              eq_refl eq_refl eq_refl eq_refl) as [w2 (E & _ & _ & _ & L)].
  rewrite E. exact L.
Defined.

(** C10: when the startup hook raises, [_daemon_run_loop] ends with that
    exception at once (no wait, no shutdown hook); in [main] the handler of
    the daemon sequence logs it with its traceback at ERROR level, which is
    always enabled there, and leaves through [sys.exit(1)]: the process
    exits with status 1, and the error record is the last thing it did. *)
Theorem startup_failure_reported e ns w x :
  reaches_run_loop e = Some ns ->
  raises (start_all e) = Some x ->
  _daemon_run_loop e (start_all e) (stop_all e) (at_loop e ns w) =
    (Raised x, started e (start_all e) (at_loop e ns w)) /\
  fst (main e w) = SysExit (ExitCode 1) /\
  exit_status (fst (main e w)) = Some 1 /\
  trace (snd (main e w)) =
    trace (started e (start_all e) (at_loop e ns w)) ++
    [ELog logging.ERROR (NAME_lower e ++ "-daemon: error: " ++ format_exc x) []].
Proof.
  intros H Hsu. destruct (main_run_loop e ns w H) as [-> L].
  rewrite (run_loop_startup_raises e _ _ _ x Hsu). simpl.
  repeat split. unfold log.
  assert (L' : isEnabledFor logging.ERROR (started e (start_all e) (at_loop e ns w))
               = true).
  { unfold isEnabledFor in *. unfold started.
    destruct (run_call_config e EStartupHook (start_all e)
                (installed (at_loop e ns w))) as (C&_&_).
    rewrite C. exact L. }
  now rewrite L'.
Qed.

Lemma startup_failure_reported_witness :
  fst (main Examples.failing_startup initial_world) = SysExit (ExitCode 1).
Proof.
  exact (proj1 (proj2
           (startup_failure_reported Examples.failing_startup
              Examples.daemon_ns initial_world Examples.boom
              eq_refl eq_refl))).
Defined.

(** * The paths of [main] that do not start the daemon *)

Lemma parse_arguments_result e ns w a :
  parse_args e = Parsed ns ->
  fst (_parse_arguments e w) = Normal a ->
  (a = None /\ help_actions ns = true) \/ (a = Some ns /\ help_actions ns = false).
Proof.
  intros Hp. unfold _parse_arguments. rewrite Hp.
  unfold bind, ext, emits, act, logger_info, raise, ret.
  destruct (help_actions ns).
  - destruct (cli_print_help e); simpl; [discriminate|]. intros [= <-]. auto.
  - destruct (_ || _); destruct (is_empty _); simpl; intros [= <-]; auto.
Qed.

Lemma only_check_pyudev P e :
  P EImportPyudev = true -> only P (check_pyudev e).
Proof.
  intros H. unfold check_pyudev. respects_tac. now apply only_emits.
Qed.

Lemma only_parse_arguments P e :
  P ECliPrintHelp = true ->
  (forall l, P (ESetLevel l) = true) ->
  (forall h l, P (EAddHandler h l) = true) ->
  P EGetLocale = true ->
  (forall l f a, P (ELog l f a) = true) ->
  only P (_parse_arguments e).
Proof.
  intros H1 H2 H3 H4 H5. unfold _parse_arguments.
  respects_tac;
    first [ now apply only_emits | now apply only_ext | now apply only_log ].
Qed.


Lemma parse_arguments_returns e w a :
  fst (_parse_arguments e w) = Normal a ->
  exists ns,
    parse_args e = Parsed ns /\
    ((a = None /\ help_actions ns = true) \/
     (a = Some ns /\ help_actions ns = false)).
Proof.
  destruct (parse_args e) as [ns|c] eqn:Hp.
  - intros H. exists ns. split; [reflexivity|].
    now apply (parse_arguments_result e ns w a).
  - unfold _parse_arguments. rewrite Hp. discriminate.
Qed.

(** C3, as stated, fails: on Linux without [pyudev], the command line
    [-D /dev/hidraw2 config] ends in [sys.exit] with a message before the
    arguments are even parsed; the dispatcher, which would have returned 3,
    is not called. *)
Lemma one_shot_needs_pyudev :
  parse_args Examples.one_shot_without_pyudev =
    Parsed (mkNamespace 0 (Some "/dev/hidraw2") false None false false
              ["config"]) /\
  cli_run Examples.one_shot_without_pyudev ["config"] (Some "/dev/hidraw2")
    = Normal (PyInt 3) /\
  program Examples.one_shot_without_pyudev =
    (SysExit (ExitMsg
       "solaar-daemon: missing required system package python3-pyudev"),
     mkWorld true logging.WARNING [] []
       [ESetLoggerClass; ETempCreate; EImportPyudev]).
Proof. vm_compute. repeat split. Qed.

(** C3, amended: on every command line that does not select daemon mode,
    so on every one with an action, whatever else it holds, [main] never
    forks, never writes a PID file and never installs a signal handler.
    When the [pyudev] guard is passed and [argparse] returns a namespace
    without [--help-actions] for such a command line, [main] calls the
    dispatcher with the action and the device path and ends exactly as the
    dispatcher does, returning its result as it is.  When the guard fails,
    or [argparse] leaves through [sys.exit] ([-h], [-V], a usage error), or
    [--help-actions] is given, the dispatcher is not called. *)
Theorem one_shot_dispatch e w :
  daemon_args e = None ->
  extends (fun ev => negb (is_daemon_effect ev)) w (snd (main e w)) /\
  (forall ns,
      parse_args e = Parsed ns -> help_actions ns = false ->
      pyudev_missing e = false ->
      is_empty (action ns) = false /\
      fst (main e w) = cli_run e (action ns) (hidraw_path ns) /\
      In (ECliRun (action ns) (hidraw_path ns)) (trace (snd (main e w)))) /\
  ((pyudev_missing e = true \/
    (forall ns, parse_args e = Parsed ns -> help_actions ns = true)) ->
   extends (fun ev => negb (is_cli_run ev)) w (snd (main e w))).
Proof.
  intros Hd.
  assert (A : forall ns, parse_args e = Parsed ns -> help_actions ns = false ->
                         is_empty (action ns) = false).
  { intros ns Hp Hh. unfold daemon_args in Hd. rewrite Hp, Hh in Hd.
    simpl in Hd. now destruct (is_empty (action ns)). }
  split; [|split].
  - revert w. change (only (fun ev => negb (is_daemon_effect ev)) (main e)).
    unfold main. apply respects_bind; [typeclasses eauto| |intros _].
    { now apply only_check_pyudev. }
    apply respects_bind_post
      with (Q := fun a => a = None \/
                          exists ns, a = Some ns /\ is_empty (action ns) = false);
      [typeclasses eauto| | |].
    + now apply only_parse_arguments.
    + intros w a H.
      destruct (parse_arguments_returns e w a H) as [ns [Hp [[-> _]|[-> Hh]]]];
        [now left | right; exists ns; auto].
    + intros a [->|[ns [-> Ha]]]; unfold temp_close; simpl.
      * respects_tac.
      * rewrite Ha. simpl. respects_tac.
  - intros ns Hp Hh Hm. pose proof (A ns Hp Hh) as Ha.
    split; [exact Ha|]. unfold main, bind.
    pose proof (check_pyudev_outcome e w) as C. rewrite Hm in C.
    destruct (check_pyudev e w) as [r0 w0]. simpl in C. subst r0.
    destruct (parse_arguments_daemon e ns w0 Hp Hh) as [P _].
    destruct (_parse_arguments e w0) as [r w1]. simpl in P. subst r.
    rewrite Ha. unfold temp_close, bind, emits, act, yield, ret. simpl.
    destruct (cli_run e (action ns) (hidraw_path ns)) as [v|x|c|]; simpl;
      split; try reflexivity;
      repeat (apply in_or_app; first [now (right; left) | left]).
  - intros H. revert w.
    change (only (fun ev => negb (is_cli_run ev)) (main e)).
    unfold main. destruct H as [Hm|Hh].
    + apply respects_bind_post with (Q := fun _ => False);
        [typeclasses eauto| | |].
      * now apply only_check_pyudev.
      * intros w a H. rewrite check_pyudev_outcome, Hm in H. discriminate.
      * intros a [].
    + apply respects_bind; [typeclasses eauto| |intros _].
      { now apply only_check_pyudev. }
      apply respects_bind_post with (Q := fun a => a = None);
        [typeclasses eauto| | |].
      * now apply only_parse_arguments.
      * intros w a H.
        destruct (parse_arguments_returns e w a H) as [ns [Hp [[-> _]|[_ F]]]];
          [reflexivity|]. rewrite (Hh ns Hp) in F. discriminate.
      * intros a ->. unfold temp_close. simpl. respects_tac.
Qed.

Lemma one_shot_dispatch_witness :
  fst (main Examples.one_shot initial_world) = Normal (PyInt 3).
Proof.
  exact (proj1 (proj2 (proj1 (proj2
           (one_shot_dispatch Examples.one_shot initial_world eq_refl))
           (mkNamespace 0 (Some "/dev/hidraw2") false None false false ["config"])
           eq_refl eq_refl eq_refl))).
Defined.




(** * Exit status in daemon mode *)

(** C5: the last part of the claim does not hold of the code.  In the
    process that stays after the detachment, a clean shutdown on SIGTERM
    (the dependency is there, both forks return 0, the listener is set up,
    both hooks return) ends in the [FileNotFoundError] of [temp.close()],
    which nothing catches: the exit status is 1 and not 0.  This is so on a
    runtime for which closing a temporary file that is already gone is an
    error (CPython up to 3.11): the file of [temp] was deleted when the
    parents of the detachment exited.  The same run with [--no-fork] exits
    with status 0. *)
Theorem clean_shutdown_of_detached_daemon :
  daemon_args Examples.detached =
    Some (mkNamespace 0 None false None false false []) /\
  program Examples.detached =
    (Raised temp_file_gone,
     mkWorld false logging.WARNING [(TempFileHandler, logging.WARNING)]
       [signal.SIGINT; signal.SIGTERM]
       [ESetLoggerClass; ETempCreate; EImportPyudev;
        ESetLevel logging.WARNING; EAddHandler TempFileHandler logging.WARNING;
        EGetLocale; EFork; EChdir "/"; ESetsid; EUmask 0; EFork;
        ERedirectStdio; ESetupScanner; EWatchSuspendResume false; EDeferSaves;
        ESignalInstall signal.SIGTERM; ESignalInstall signal.SIGINT;
        EStartupHook; ESleep 1; ESleep 1; EShutdownHook; ETempClose]) /\
  exit_status (fst (program Examples.detached)) = Some 1 /\
  exit_status (fst (program Examples.quiet)) = Some 0.
Proof. vm_compute. repeat split. Qed.

(** * The PID file *)

Lemma write_pid_file_fails e p x w :
  (p =? "")%string = false ->
  pid_write_error e p = Some x ->
  _write_pid_file e (Some p) w =
    (Normal tt,
     log logging.ERROR "Failed to write PID file %s: %s" [AStr p; AExn x]
         (attempted e p w)).
Proof.
  intros Hp. unfold pid_write_error, attempted, _write_pid_file. rewrite Hp.
  unfold try_except, bind, ext, emits, act, logger_error, raise. simpl.
  destruct (open_w e p) as [y|]; simpl.
  - now intros [= ->].
  - now intros ->.
Qed.

Lemma conclude_keeps e ns r ev :
  In ev (trace (snd r)) -> In ev (trace (snd (conclude e ns r))).
Proof.
  destruct r as [[[]|x|c|] w]; simpl; auto.
  - intros H. apply in_or_app. now left.
  - unfold log. destruct (isEnabledFor _ _); simpl; auto.
    intros H. apply in_or_app. now left.
Qed.

Lemma only_wait_phase_any e : only (fun _ => true) (wait_phase e).
Proof. eapply only_weaken; [|apply only_wait_phase]. reflexivity. Qed.

(** Whatever happens next, the run loop has installed the handlers and
    called the startup hook. *)
Lemma run_loop_starts e su sd w ev :
  In ev [ESignalInstall signal.SIGTERM; ESignalInstall signal.SIGINT;
         EStartupHook] ->
  In ev (trace (snd (_daemon_run_loop e su sd w))).
Proof.
  intros Hin.
  assert (S : In ev (trace (started e su w))).
  { destruct (started_trace e su w) as [evs [_ E]]. rewrite E.
    apply in_or_app. right. simpl in *. intuition. }
  destruct (raises su) as [x|] eqn:R.
  - now rewrite (run_loop_startup_raises e su sd w x R).
  - rewrite (run_loop_startup_returns e su sd w R).
    pose proof (only_keeps _ (wait_phase e) _ ev (only_wait_phase_any e) S) as W.
    destruct (ends _); [|exact W].
    apply (only_keeps (fun _ => true)); [|exact W].
    apply only_run_call; reflexivity.
Qed.

(** C6: when a PID file is configured and writing it fails, with whatever
    exception, [_write_pid_file] logs the error and returns, without
    registering a cleanup; [main] then still goes on to the run loop
    (provided the scanner and the suspend/resume watch are set up without
    an exception): the handlers are installed and the startup hook is
    called, with the error logged.  With no path configured
    [_write_pid_file] does nothing. *)
Theorem pid_file_failure_not_fatal e ns w p x :
  reaches_run_loop e = Some ns ->
  pid_file ns = Some p ->
  (p =? "")%string = false ->
  pid_write_error e p = Some x ->
  (forall w',
      _write_pid_file e (pid_file ns) w' =
        (Normal tt,
         log logging.ERROR "Failed to write PID file %s: %s" [AStr p; AExn x]
             (attempted e p w'))) /\
  In (ELog logging.ERROR "Failed to write PID file %s: %s" [AStr p; AExn x])
     (trace (snd (main e w))) /\
  In (ESignalInstall signal.SIGTERM) (trace (snd (main e w))) /\
  In (ESignalInstall signal.SIGINT) (trace (snd (main e w))) /\
  In EStartupHook (trace (snd (main e w))) /\
  (forall w', _write_pid_file e None w' = (Normal tt, w')) /\
  (forall w', _write_pid_file e (Some "") w' = (Normal tt, w')).
Proof.
  intros H Hpf Hp Hx.
  destruct (main_run_loop e ns w H) as [-> _].
  destruct (reaches_run_loop_inv e ns H) as (He & _ & _).
  destruct (enters_try_inv e ns He) as (Ha & Hm & _).
  pose proof (daemon_args_mode e ns Ha) as Hd.
  split; [|split; [|repeat split]].
  - intros w'. rewrite Hpf. now apply write_pid_file_fails.
  - apply conclude_keeps.
    apply (only_keeps (fun _ => true)); [apply only_daemon_run_loop|].
    unfold at_loop, prepared. simpl.
    repeat (apply in_or_app; left).
    pose proof (enters_try_normal e ns w He) as N.
    rewrite before_try_outcome in N.
    pose proof (before_pid_level e ns w Hd Hm) as L.
    unfold before_try, bind.
    destruct (before_pid e ns w) as [[[]|y|c|] wa]; try discriminate.
    simpl in L. rewrite Hpf, (write_pid_file_fails e p x wa Hp Hx).
    assert (U : only (fun _ => true) (udev_advisory e)).
    { unfold udev_advisory. respects_tac. }
    apply (only_keeps _ _ _ _ U). unfold log.
    assert (En : isEnabledFor logging.ERROR (attempted e p wa) = true).
    { apply (root_threshold_error (debug ns)). rewrite <- L.
      unfold attempted. now destruct (open_w e p). }
    rewrite En. simpl. apply in_or_app. right. now left.
  - apply conclude_keeps, run_loop_starts. simpl. auto.
  - apply conclude_keeps, run_loop_starts. simpl. auto.
  - apply conclude_keeps, run_loop_starts. simpl. auto.
Qed.

Lemma pid_file_failure_not_fatal_witness :
  In EStartupHook (trace (snd (main Examples.unwritable_pid initial_world))).
Proof.
  exact (proj1 (proj2 (proj2 (proj2 (proj2
           (pid_file_failure_not_fatal Examples.unwritable_pid Examples.pid_ns
              initial_world "/run/solaar.pid" Examples.denied
              eq_refl eq_refl eq_refl eq_refl)))))).
Defined.


(** * Further properties of the run loop *)

(** An exception raised by [time.sleep] (the sleeps before it being
    uneventful) ends the wait; it is logged at ERROR level and goes no
    further: the shutdown hook is called next and [_daemon_run_loop] ends
    as the shutdown hook does. *)
Theorem sleep_exception_is_swallowed e su sd w pre c post y :
  raises su = None ->
  _running (started e su w) = true ->
  sleeps e = pre ++ c :: post ->
  forallb (is_quiet (signal.SIGINT :: signal.SIGTERM :: sig_handlers w)) pre
    = true ->
  raises c = Some y ->
  _daemon_run_loop e su sd w =
    run_call e EShutdownHook sd
      (log logging.ERROR "daemon loop error: %s" [AExn y]
         (snd (run_call e (ESleep 1) c
                 (slept (List.length pre) (started e su w))))) /\
  fst (_daemon_run_loop e su sd w) = call_outcome sd.
Proof.
  intros Hsu R Hsch Hpre Hc.
  rewrite <- (started_handlers e su w) in Hpre.
  pose proof (wait_loop_quiet e pre (c :: post) _ R Hpre) as Q.
  rewrite <- Hsch in Q.
  destruct (slept_fields (List.length pre) (started e su w)) as (S1 & _ & _).
  simpl in Q. rewrite S1, R in Q.
  pose proof (run_call_outcome e (ESleep 1) c
                (slept (List.length pre) (started e su w))) as O.
  unfold call_outcome in O. rewrite Hc in O.
  destruct (run_call e (ESleep 1) c (slept (List.length pre) (started e su w)))
    as [r w2]. simpl in *. subst r.
  rewrite (run_loop_startup_returns e su sd w Hsu).
  unfold wait_phase, try_except. rewrite Q. simpl.
  split; [reflexivity | apply run_call_outcome].
Qed.

Lemma sleep_exception_is_swallowed_witness :
  fst (_daemon_run_loop Examples.broken_sleep returns_quietly returns_quietly
         initial_world) = Normal tt.
Proof.
  exact (proj2 (sleep_exception_is_swallowed Examples.broken_sleep
                  returns_quietly returns_quietly initial_world
                  [returns_quietly] (mkCall [] (Some Examples.boom)) []
                  Examples.boom eq_refl eq_refl eq_refl eq_refl eq_refl)).
Defined.



(** * Verbosity after the arguments are parsed *)

Lemma info_enabled_iff d w :
  root_level w = root_threshold d ->
  isEnabledFor logging.INFO w = (2 <=? d)%nat.
Proof.
  unfold isEnabledFor, root_threshold, log_level, logging.ERROR,
    logging.WARNING, logging.INFO.
  intros ->. destruct (Nat.leb_spec 2 d).
  - apply Z.leb_le. lia.
  - apply Z.leb_gt. lia.
Qed.

(** Once [_parse_arguments] has set up logging (no [--help-actions]),
    ERROR and WARNING records are made whatever the number of [-d]; INFO
    records are made from two [-d] on, DEBUG records from three on. *)
Theorem enabled_levels_after_parsing e ns w :
  parse_args e = Parsed ns ->
  help_actions ns = false ->
  isEnabledFor logging.ERROR (snd (_parse_arguments e w)) = true /\
  isEnabledFor logging.WARNING (snd (_parse_arguments e w)) = true /\
  isEnabledFor logging.INFO (snd (_parse_arguments e w)) = (2 <=? debug ns)%nat /\
  isEnabledFor logging.DEBUG (snd (_parse_arguments e w)) = (3 <=? debug ns)%nat.
Proof.
  intros Hp Hh. destruct (parse_arguments_daemon e ns w Hp Hh) as [_ L].
  repeat split.
  - now apply (root_threshold_error (debug ns)).
  - unfold isEnabledFor. rewrite L.
    unfold root_threshold, logging.WARNING. apply Z.leb_le. lia.
  - now apply info_enabled_iff.
  - unfold isEnabledFor. rewrite L.
    unfold root_threshold, log_level, logging.ERROR, logging.WARNING,
      logging.DEBUG.
    destruct (Nat.leb_spec 3 (debug ns)).
    + apply Z.leb_le. lia.
    + apply Z.leb_gt. lia.
Qed.

Lemma enabled_levels_after_parsing_witness :
  isEnabledFor logging.INFO
    (snd (_parse_arguments Examples.unwritable_pid initial_world)) = false.
Proof.
  exact (proj1 (proj2 (proj2
           (enabled_levels_after_parsing Examples.unwritable_pid
              Examples.pid_ns initial_world eq_refl eq_refl)))).
Defined.



(** The headless callbacks given to the listener: after the arguments are
    parsed, [daemon_error_handler] always makes its ERROR record, and
    [daemon_setting_changed] makes its record from two [-d] on and does
    nothing otherwise; neither ever raises. *)
Theorem callbacks_after_parsing e ns w reason path dev setting vals :
  parse_args e = Parsed ns ->
  help_actions ns = false ->
  daemon_error_handler reason path (snd (_parse_arguments e w)) =
    (Normal tt,
     emit (ELog logging.ERROR "daemon error: %s for device %s"
             [AStr reason; AStr path])
          (snd (_parse_arguments e w))) /\
  daemon_setting_changed dev setting vals (snd (_parse_arguments e w)) =
    (Normal tt,
     if (2 <=? debug ns)%nat
     then emit (ELog logging.INFO "daemon setting_changed %s: %s = %s"
                  [AStr dev; AStr setting; AStr vals])
               (snd (_parse_arguments e w))
     else snd (_parse_arguments e w)).
Proof.
  intros Hp Hh. destruct (parse_arguments_daemon e ns w Hp Hh) as [_ L].
  unfold daemon_error_handler, daemon_setting_changed, logger_error,
    logger_info, act, log.
  rewrite (root_threshold_error (debug ns) _ L),
    (info_enabled_iff (debug ns) _ L).
  split; reflexivity.
Qed.

Lemma callbacks_after_parsing_witness :
  daemon_setting_changed "MX Master" "dpi" "1600"
    (snd (_parse_arguments Examples.quiet initial_world))
  = (Normal tt, snd (_parse_arguments Examples.quiet initial_world)).
Proof.
  exact (proj2 (callbacks_after_parsing Examples.quiet Examples.daemon_ns
                  initial_world "no permissions" "/dev/hidraw2"
                  "MX Master" "dpi" "1600" eq_refl eq_refl)).
Defined.

(** * Detachment *)


(** * The PID file, when it can be written *)

Lemma to_uint_not_nil p : Pos.to_uint p <> Decimal.Nil.
Proof.
  intros H. pose proof (DecimalPos.Unsigned.of_to p) as O.
  rewrite H in O. discriminate.
Qed.

(** The text written to the PID file is the process id in base ten: read
    back as an integer, it is the process id. *)
Lemma str_round_trip n : int_of_str (str n) = Some n.
Proof.
  unfold int_of_str, str.
  rewrite NilZero.isi.
  - simpl. now rewrite DecimalZ.of_to.
  - destruct n; simpl; try discriminate.
    intros [= H]. now apply to_uint_not_nil in H.
  - destruct n; simpl; try discriminate.
    intros [= H]. now apply to_uint_not_nil in H.
Qed.

(** [_write_pid_file] always returns.  It registers the removal of the PID
    file at exit exactly once when a path is configured and the file was
    opened and written without an exception, and not at all otherwise; the
    text it writes, read back as an integer, is [os.getpid()]. *)
Theorem write_pid_file_registers_what_it_wrote e pf w :
  fst (_write_pid_file e pf w) = Normal tt /\
  count_ev is_atexit (trace (snd (_write_pid_file e pf w))) =
    (count_ev is_atexit (trace w) + if pid_written e pf then 1 else 0)%nat /\
  (forall p content,
      In (EFileWrite p content) (trace (snd (_write_pid_file e pf w))) ->
      ~ In (EFileWrite p content) (trace w) ->
      pf = Some p /\ int_of_str content = Some (getpid e)).
Proof.
  split; [apply write_pid_file_normal|].
  unfold _write_pid_file, pid_written, pid_write_error.
  destruct pf as [p|]; simpl.
  2:{ split; [lia | intros p c H N; contradiction]. }
  destruct (p =? "")%string; simpl.
  { split; [lia | intros q c H N; contradiction]. }
  unfold try_except, bind, ext, emits, act, logger_info, logger_error, raise,
    ret, log.
  destruct (open_w e p) as [x|]; simpl.
  - split.
    + destruct (isEnabledFor _ _); simpl;
        rewrite !count_ev_app; unfold count_ev; simpl; lia.
    + intros q c H N. exfalso.
      destruct (isEnabledFor _ _); simpl in H;
        repeat (apply in_app_or in H; destruct H as [H|H]);
        try contradiction; simpl in H; intuition discriminate.
  - destruct (file_write e p) as [x|]; simpl.
    + split.
      * destruct (isEnabledFor _ _); simpl;
          rewrite !count_ev_app; unfold count_ev; simpl; lia.
      * intros q c H N.
        assert (G : EFileWrite p (str (getpid e)) = EFileWrite q c).
        { destruct (isEnabledFor _ _); simpl in H;
            repeat (apply in_app_or in H; destruct H as [H|H]);
            try contradiction; simpl in H; intuition discriminate. }
        injection G as <- <-. split; [reflexivity | apply str_round_trip].
    + split.
      * destruct (isEnabledFor _ _); simpl;
          rewrite !count_ev_app; unfold count_ev; simpl; lia.
      * intros q c H N.
        assert (G : EFileWrite p (str (getpid e)) = EFileWrite q c).
        { destruct (isEnabledFor _ _); simpl in H;
            repeat (apply in_app_or in H; destruct H as [H|H]);
            try contradiction; simpl in H; intuition discriminate. }
        injection G as <- <-. split; [reflexivity | apply str_round_trip].
Qed.

Lemma write_pid_file_registers_what_it_wrote_witness :
  int_of_str "4242" = Some 4242.
Proof.
  apply (proj2 (proj2 (write_pid_file_registers_what_it_wrote
                         Examples.quiet (Some "/run/solaar.pid") initial_world))
           "/run/solaar.pid" "4242").
  - vm_compute. tauto.
  - vm_compute. intuition discriminate.
Defined.

(** * Failures while the listener is set up *)

(** When [listener.setup_scanner] or [dbus.watch_suspend_resume] raises,
    [main] logs the exception with its traceback and leaves through
    [sys.exit(1)]; the run loop is not entered: no signal handler is
    installed and no hook is called; what [main] did after the advisory is
    the set-up call or calls and the error record. *)
Theorem setup_failure_stops_before_run_loop e ns w x :
  enters_try e = Some ns ->
  setup_error e ns = Some x ->
  fst (main e w) = SysExit (ExitCode 1) /\
  exit_status (fst (main e w)) = Some 1 /\
  trace (snd (main e w)) =
    trace (snd (before_try e ns w)) ++
    ESetupScanner ::
    (if is_none (setup_scanner e)
     then [EWatchSuspendResume (restart_on_wake_up ns)] else []) ++
    [ELog logging.ERROR (NAME_lower e ++ "-daemon: error: " ++ format_exc x) []].
Proof.
  intros He Hx. destruct (enters_try_inv e ns He) as (Ha & Hm & _).
  pose proof (daemon_args_mode e ns Ha) as Hd.
  rewrite (main_split e ns w Hd).
  pose proof (enters_try_normal e ns w He) as N.
  pose proof (before_try_level e ns w Hd Hm) as L.
  destruct (before_try e ns w) as [r w1]. simpl in N, L. subst r. simpl.
  pose proof (root_threshold_error (debug ns) w1 L) as En.
  unfold setup_error in Hx.
  unfold daemon_sequence, bind, ext, emits, act, raise, ret.
  destruct (setup_scanner e) as [y|]; simpl.
  - injection Hx as ->. unfold log, isEnabledFor in *. simpl.
    rewrite En. simpl. now rewrite <- !app_assoc.
  - rewrite Hx. simpl. unfold log, isEnabledFor in *. simpl.
    rewrite En. simpl. now rewrite <- !app_assoc.
Qed.

Lemma setup_failure_stops_before_run_loop_witness :
  fst (main Examples.broken_scanner initial_world) = SysExit (ExitCode 1).
Proof.
  exact (proj1 (setup_failure_stops_before_run_loop Examples.broken_scanner
                  Examples.daemon_ns initial_world Examples.boom
                  eq_refl eq_refl)).
Defined.

(** * The order of the daemon start-up *)

Lemma only_run_loop_events e su sd : only is_loop_event (_daemon_run_loop e su sd).
Proof.
  assert (D : forall ev, is_diagnostic ev = true -> is_loop_event ev = true)
    by (intros []; simpl; congruence).
  unfold _daemon_run_loop, wait_phase, signal_signal. respects_tac;
    try (apply only_run_call; [reflexivity | exact D]).
  eapply only_weaken; [|apply only_wait_loop].
  intros [] H; simpl in *; try discriminate; reflexivity.
Qed.

Lemma only_before_pid e ns :
  only (fun ev => negb (is_service_event ev)) (before_pid e ns).
Proof.
  unfold before_pid.
  apply respects_bind; [typeclasses eauto| |intros _].
  { now apply only_check_pyudev. }
  apply respects_bind; [typeclasses eauto| |intros _].
  { now apply only_parse_arguments. }
  unfold _daemonize, fork_step. respects_tac.
Qed.

Lemma only_after_pid e ns :
  only (fun ev => negb (is_detach_event ev)) (after_pid e ns).
Proof.
  unfold after_pid, _write_pid_file, udev_advisory, daemon_sequence,
    temp_close.
  respects_tac.
  eapply only_weaken; [|apply only_run_loop_events].
  intros [] H; simpl in *; try discriminate; reflexivity.
Qed.

Lemma main_phases e ns w :
  daemon_mode e ns ->
  main e w = bind (before_pid e ns) (fun _ => after_pid e ns) w.
Proof.
  intros (Hp & Hh & Ha). unfold main, before_pid, after_pid, run_daemon, bind.
  destruct (check_pyudev e w) as [[[]|x|c|] w0]; try reflexivity.
  destruct (parse_arguments_daemon e ns w0 Hp Hh) as [P _].
  destruct (_parse_arguments e w0) as [r w1]. simpl in P. subst r.
  rewrite Ha. simpl.
  destruct ((if negb (no_fork ns) then _daemonize e else ret tt) w1)
    as [[[]|x|c|] w2]; reflexivity.
Qed.

(** In daemon mode [main] works in two phases.  In the first it checks the
    dependency, parses the arguments and detaches; nothing of the service
    exists yet: no PID file, no listener, no signal handler, no hook.  In
    the second, which only the detached process gets to, there is no fork
    and no other step of the detachment any more.  So the PID file is
    written, and the handlers are installed, by the process that stays. *)
Theorem detachment_comes_first e ns w :
  daemon_args e = Some ns ->
  exists evs1 evs2,
    trace (snd (main e w)) = trace w ++ evs1 ++ evs2 /\
    forallb (fun ev => negb (is_service_event ev)) evs1 = true /\
    forallb (fun ev => negb (is_detach_event ev)) evs2 = true /\
    (fst (before_pid e ns w) <> Normal tt -> evs2 = []).
Proof.
  intros Ha. rewrite (main_phases e ns w (daemon_args_mode e ns Ha)).
  unfold bind. destruct (only_before_pid e ns w) as [evs1 [E1 F1]].
  destruct (before_pid e ns w) as [[[]|x|c|] w1]; simpl in *;
    try solve [exists evs1, []; rewrite app_nil_r; repeat split; auto].
  destruct (only_after_pid e ns w1) as [evs2 [E2 F2]].
  exists evs1, evs2. repeat split; auto.
  - now rewrite E2, E1, app_assoc.
  - intros H. exfalso. now apply H.
Qed.

Lemma detachment_comes_first_witness :
  exists evs1 evs2,
    trace (snd (main Examples.failing_startup initial_world))
    = trace initial_world ++ evs1 ++ evs2 /\
    forallb (fun ev => negb (is_service_event ev)) evs1 = true /\
    forallb (fun ev => negb (is_detach_event ev)) evs2 = true /\
    (fst (before_pid Examples.failing_startup Examples.daemon_ns initial_world)
     <> Normal tt -> evs2 = []).
Proof.
  exact (detachment_comes_first Examples.failing_startup Examples.daemon_ns
           initial_world eq_refl).
Defined.

(** * What holds on every path of [main] *)


(** Outside daemon mode no hook is called, and the temporary file is
    closed exactly when [main] returns. *)
Lemma main_outside_daemon e w :
  daemon_args e = None ->
  exists evs,
    trace (snd (main e w)) = trace w ++ evs /\
    count_ev is_startup evs = 0%nat /\
    count_ev is_shutdown evs = 0%nat /\
    count_ev is_temp_close evs =
      match fst (main e w) with Normal _ => 1%nat | _ => 0%nat end.
Proof.
  unfold daemon_args. intros H.
  unfold main, check_pyudev, _parse_arguments, bind, emits, act, ext,
    sys_exit, raise, ret, yield.
  destruct (negb _); simpl;
    [destruct (pyudev_importable e); simpl|];
    try (eexists; split; [reflexivity | now repeat split]);
    (destruct (parse_args e) as [ns|c]; simpl;
     [|first [ exists []; rewrite app_nil_r; now repeat split
             | eexists; split; [reflexivity | now repeat split] ]]);
    (destruct (help_actions ns); simpl in *;
     [ destruct (cli_print_help e); simpl;
       rewrite <- ?app_assoc; eexists; split; try reflexivity; now repeat split
     | ]);
    (destruct (action ns) as [|a l] eqn:A; simpl in *; [discriminate|]);
    destruct (_ || _); simpl; rewrite ?A; simpl;
    destruct (cli_run e (a :: l) (hidraw_path ns)); simpl;
    rewrite <- ?app_assoc; eexists; (split; [reflexivity|]); now repeat split.
Qed.

Lemma only_before_try_quiet e ns :
  only (fun ev => negb (is_temp_close ev || is_startup ev || is_shutdown ev))
       (before_try e ns).
Proof.
  unfold before_try. apply respects_bind; [typeclasses eauto| |intros _].
  - eapply only_weaken; [|apply only_before_pid].
    intros [] H; simpl in *; try discriminate; reflexivity.
  - unfold _write_pid_file, udev_advisory. respects_tac.
Qed.





Lemma diagnostic_not_startup ev :
  is_diagnostic ev = true -> is_startup ev = false.
Proof. now destruct ev. Qed.

Lemma run_loop_hook_counts e su sd w :
  count_ev is_startup (trace (snd (_daemon_run_loop e su sd w))) =
    (count_ev is_startup (trace w) + 1)%nat /\
  (count_ev is_shutdown (trace (snd (_daemon_run_loop e su sd w))) <=
     count_ev is_shutdown (trace w) + 1)%nat.
Proof.
  assert (S : count_ev is_startup (trace (started e su w))
              = (count_ev is_startup (trace w) + 1)%nat).
  { destruct (started_trace e su w) as [evs [F E]]. rewrite E, count_ev_app.
    change (ESignalInstall signal.SIGTERM :: ESignalInstall signal.SIGINT
              :: EStartupHook :: evs)
      with ([ESignalInstall signal.SIGTERM; ESignalInstall signal.SIGINT;
             EStartupHook] ++ evs).
    rewrite count_ev_app, (count_ev_diagnostic _ _ diagnostic_not_startup F).
    unfold count_ev at 2. simpl. lia. }
  assert (W : forall w1, count_ev is_startup (trace (snd (wait_phase e w1)))
                         = count_ev is_startup (trace w1)).
  { intros w1. apply only_count. eapply only_weaken; [|apply only_wait_phase].
    intros ev H. simpl in H. apply negb_true_iff in H.
    apply orb_false_iff in H as [_ H]. now rewrite H. }
  assert (C : forall w1,
             count_ev is_startup (trace (snd (run_call e EShutdownHook sd w1)))
             = count_ev is_startup (trace w1)).
  { intros w1. destruct (run_call_trace e EShutdownHook sd w1) as [evs [F E]].
    rewrite E. change (EShutdownHook :: evs) with ([EShutdownHook] ++ evs).
    rewrite !count_ev_app, (count_ev_diagnostic _ _ diagnostic_not_startup F).
    unfold count_ev at 2. simpl. lia. }
  destruct (raises su) as [x|] eqn:R.
  - rewrite (run_loop_startup_raises e su sd w x R). simpl.
    rewrite started_shutdown_count. split; [exact S | lia].
  - rewrite (run_loop_startup_returns e su sd w R).
    destruct (ends _); simpl.
    + rewrite C, W, S, run_call_shutdown_count, wait_phase_shutdown_count,
        started_shutdown_count. split; lia.
    + rewrite W, S, wait_phase_shutdown_count, started_shutdown_count.
      split; lia.
Qed.

Lemma conclude_hook_count p e ns r :
  p ETempClose = false ->
  (forall l f a, p (ELog l f a) = false) ->
  count_ev p (trace (snd (conclude e ns r))) = count_ev p (trace (snd r)).
Proof.
  intros H1 H2. destruct r as [[[]|x|c|] w]; simpl; auto.
  - rewrite count_ev_app. unfold count_ev at 2. simpl. rewrite H1. simpl. lia.
  - unfold log. destruct (isEnabledFor _ _); simpl; auto.
    rewrite count_ev_app. unfold count_ev at 2. simpl. rewrite H2. simpl. lia.
Qed.

Lemma daemon_sequence_hook_counts e ns w :
  count_ev is_startup (trace (snd (daemon_sequence e ns w))) =
    (count_ev is_startup (trace w)
     + if is_none (setup_error e ns) then 1 else 0)%nat /\
  (count_ev is_shutdown (trace (snd (daemon_sequence e ns w))) <=
     count_ev is_shutdown (trace w)
     + if is_none (setup_error e ns) then 1 else 0)%nat.
Proof.
  unfold setup_error.
  destruct (setup_scanner e) as [x|] eqn:S1.
  - unfold daemon_sequence, bind, ext, emits, act, raise. rewrite S1. simpl.
    rewrite !count_ev_app. unfold count_ev. simpl. lia.
  - destruct (watch_suspend_resume e (restart_on_wake_up ns)) as [x|] eqn:S2.
    + unfold daemon_sequence, bind, ext, emits, act, raise. rewrite S1, S2.
      simpl. rewrite !count_ev_app. unfold count_ev. simpl. lia.
    + rewrite (daemon_sequence_loop e ns w S1 S2).
      destruct (run_loop_hook_counts e (start_all e) (stop_all e)
                  (prepared ns w)) as [A B].
      unfold prepared in *. simpl in *.
      rewrite !count_ev_app in A, B. unfold count_ev in *. simpl in *.
      rewrite A. split; lia.
Qed.

(** On every path of [main], the startup hook is called exactly once when
    the run loop is reached (daemon mode, the dependency present, the
    process that stays after the detachment, the listener set up without an
    exception) and is not called otherwise; the shutdown hook is never
    called more than once, and never when the startup hook was not
    called. *)
Theorem hooks_called_at_most_once e w :
  count_ev is_startup (trace (snd (main e w))) =
    (count_ev is_startup (trace w)
     + if is_none (reaches_run_loop e) then 0 else 1)%nat /\
  (count_ev is_shutdown (trace (snd (main e w))) <=
     count_ev is_shutdown (trace w)
     + if is_none (reaches_run_loop e) then 0 else 1)%nat.
Proof.
  unfold reaches_run_loop, enters_try.
  destruct (daemon_args e) as [ns|] eqn:Ha.
  2:{ destruct (main_outside_daemon e w Ha) as [evs (E & S1 & S2 & _)].
      rewrite E, !count_ev_app, S1, S2. simpl. lia. }
  pose proof (daemon_args_mode e ns Ha) as Hd.
  rewrite (main_split e ns w Hd).
  assert (B1 : count_ev is_startup (trace (snd (before_try e ns w)))
               = count_ev is_startup (trace w)).
  { apply only_count. eapply only_weaken; [|apply only_before_try_quiet].
    intros ev H. simpl in H. apply negb_true_iff in H.
    apply orb_false_iff in H as [H _]. apply orb_false_iff in H as [_ H].
    now rewrite H. }
  assert (B2 : count_ev is_shutdown (trace (snd (before_try e ns w)))
               = count_ev is_shutdown (trace w)).
  { apply only_count. eapply only_weaken; [|apply only_before_try_quiet].
    intros ev H. simpl in H. apply negb_true_iff in H.
    apply orb_false_iff in H as [_ H]. now rewrite H. }
  pose proof (before_try_outcome e ns w) as O.
  rewrite (before_pid_outcome e ns w Hd) in O.
  destruct (before_try e ns w) as [r w1]. simpl in B1, B2, O. subst r.
  destruct (pyudev_missing e); simpl; [lia|].
  assert (G : stays e ns = true ->
              count_ev is_startup
                (trace (snd (conclude e ns (daemon_sequence e ns w1))))
              = (count_ev is_startup (trace w)
                 + if is_none (setup_error e ns) then 1 else 0)%nat /\
              (count_ev is_shutdown
                 (trace (snd (conclude e ns (daemon_sequence e ns w1))))
               <= count_ev is_shutdown (trace w)
                  + if is_none (setup_error e ns) then 1 else 0)%nat).
  { intros _. rewrite !conclude_hook_count by reflexivity.
    destruct (daemon_sequence_hook_counts e ns w1) as [A B].
    rewrite A, <- B1, <- B2. split; [reflexivity | exact B]. }
  assert (X : forall b : bool,
             (if is_none (if b then Some ns else @None Namespace)
              then 0 else 1)%nat = (if b then 1 else 0)%nat)
    by (now intros []).
  assert (Y : is_none (setup_scanner e)
              && is_none (watch_suspend_resume e (restart_on_wake_up ns))
              = is_none (setup_error e ns)).
  { unfold setup_error. now destruct (setup_scanner e). }
  unfold stays in *. destruct (no_fork ns); simpl in *.
  - rewrite X, Y. now apply G.
  - destruct (detach_outcome e) as [[]|x|c|]; simpl; try lia.
    rewrite X, Y. now apply G.
Qed.

(** * The status callback *)

(** [daemon_status_changed], given a device or a receiver (not [None]),
    never raises, whatever reading the object or pinging it does.  With
    INFO disabled it does nothing at all, not even the ping.  With INFO
    enabled it makes exactly one log record (the status, or the message
    about an unknown device when something raised), and it pings the object
    exactly when this is a device and not a receiver. *)
Theorem status_changed_is_contained d alert reason :
  (forall info, snd (daemon_status_changed info (Some d) alert reason) = Value tt) /\
  fst (daemon_status_changed false (Some d) alert reason) = [] /\
  List.length (filter is_info
                 (fst (daemon_status_changed true (Some d) alert reason))) = 1%nat /\
  List.length (filter is_ping
                 (fst (daemon_status_changed true (Some d) alert reason)))
    = (if has_kind d then 1 else 0)%nat.
Proof.
  unfold daemon_status_changed, has_kind, dtry, dbind, dget, ddo, dret.
  split; [intros []|];
    destruct (dev_kind d) as [[k|]|x]; simpl;
    destruct (dev_ping d); simpl;
    destruct (dev_bool d) as [[]|y]; simpl;
    destruct (dev_online d) as [[]|z]; simpl; auto.
Qed.

(** A failure while the status is worked out (reading [kind], the ping,
    the truth value, [online]) is reported by the record about an unknown
    device, which carries the exception; nothing else is logged. *)
Theorem status_changed_reports_failure d alert reason x :
  (dev_kind d = Fails x \/
   (has_kind d = true /\ dev_ping d = Some x)) ->
  filter is_info (fst (daemon_status_changed true (Some d) alert reason)) =
    [DInfo "daemon status_changed for unknown device: %s" [AExn x]].
Proof.
  unfold daemon_status_changed, has_kind, dtry, dbind, dget, ddo, dret.
  intros [H|[H1 H2]].
  - rewrite H. reflexivity.
  - destruct (dev_kind d) as [[k|]|y]; try discriminate.
    rewrite H2. reflexivity.
Qed.

Lemma status_changed_reports_failure_witness :
  filter is_info (fst (daemon_status_changed true (Some silent_mouse)
                         (Some 4) None)) =
    [DInfo "daemon status_changed for unknown device: %s"
       [AExn (mkExn "NoSuchDevice" "device unreachable")]].
Proof.
  apply (status_changed_reports_failure silent_mouse (Some 4) None
           (mkExn "NoSuchDevice" "device unreachable")).
  right. split; reflexivity.
Defined.

(** * The exit status of a one-shot action *)

(** Run as a script, the file calls [main()] and drops what it returns:
    after a one-shot action the process exits with status 0 whenever the
    dispatcher returns, whatever value it returns; the status is not 0
    only when the dispatcher raises (status 1) or calls [sys.exit]
    itself. *)
Theorem one_shot_status_ignores_result e ns w :
  parse_args e = Parsed ns ->
  is_empty (action ns) = false ->
  help_actions ns = false ->
  pyudev_missing e = false ->
  exit_status (fst (main e w)) =
    exit_status (cli_run e (action ns) (hidraw_path ns)) /\
  (forall v, cli_run e (action ns) (hidraw_path ns) = Normal v ->
             exit_status (fst (main e w)) = Some 0).
Proof.
  intros Hp Ha Hh Hm.
  assert (E : fst (main e w) = cli_run e (action ns) (hidraw_path ns)).
  { unfold main, bind.
    pose proof (check_pyudev_outcome e w) as C. rewrite Hm in C.
    destruct (check_pyudev e w) as [r0 w0]. simpl in C. subst r0.
    destruct (parse_arguments_daemon e ns w0 Hp Hh) as [P _].
    destruct (_parse_arguments e w0) as [r w1]. simpl in P. subst r.
    rewrite Ha. unfold emits, act, yield, ret. simpl.
    now destruct (cli_run e (action ns) (hidraw_path ns)). }
  rewrite E. split; [reflexivity|]. now intros v ->.
Qed.

Lemma one_shot_status_ignores_result_witness :
  exit_status (fst (main Examples.one_shot initial_world)) = Some 0.
Proof.
  exact (proj2 (one_shot_status_ignores_result Examples.one_shot
                  (mkNamespace 0 (Some "/dev/hidraw2") false None false false
                     ["config"])
                  initial_world eq_refl eq_refl eq_refl eq_refl)
           (PyInt 3) eq_refl).
Defined.

(** ** The exit status of the daemon *)





